(** * Translation complexity scorer: a shallow embedding and its properties

    The development follows the Python package [translation_complexity]:

    - [config.py]                 ~> [Config], [get_metric_weights],
                                     [get_complexity_level]
    - [metrics/readability.py]    ~> [Module ReadabilityMetrics]
    - [metrics/linguistic.py]     ~> [Module LinguisticMetrics]
    - [metrics/translation.py]    ~> [Module TranslationMetrics]
    - [scorer.py]                 ~> [Module TranslationComplexityScorer]

    Modelling conventions.

    - A Python [float] is an exact rational ([Q]); rounding, overflow and
      infinities of binary64 are outside the model.  The one non-number the
      code can manufacture by itself, the [nan] that [np.mean] returns on an
      empty list, is kept ([npfloat]).  Numeric results are compared with
      [==] ([Qeq]).  Where a property turns on rounding itself, the source
      expression is evaluated on binary64 floats as well (the definitions
      named [..._binary64]) and its exact value read off with
      [binary64_to_Q].
    - A Python [dict] with string keys is a [gmap string _].
    - A call that may raise returns a [result]; [try ... except Exception]
      is [try_except].
    - The libraries the package calls (textstat, spaCy, the tokenizer and the
      embedding model) are collaborators with a fixed interface: they are the
      fields of [Collaborators], each of them allowed to raise.
    - Text is a [string] of ASCII characters. *)

From Stdlib Require Import QArith Qminmax Lqa String List Ascii Floats.
From stdpp Require Import gmap strings.

Open Scope Q_scope.
Open Scope string_scope.

(** A decimal literal of type [float] denotes the nearest double, as a
    Python literal does. *)
Set Warnings "-inexact-float".

(** ** Exceptions and results *)

Inductive exn : Type :=
| ZeroDivisionError
| KeyError (key : string)
| ValueError (msg : string)
| RuntimeError (msg : string).

Inductive result (A : Type) : Type :=
| Ok (a : A)
| Raise (e : exn).

Arguments Ok {A} a.
Arguments Raise {A} e.

(** Sequencing: [x ← c; k] runs [c] and stops at the first exception. *)
#[global] Instance result_ret : MRet result := λ A a, Ok a.
#[global] Instance result_bind : MBind result := λ A B k c,
  match c with
  | Ok a => k a
  | Raise e => Raise e
  end.

(** [try: body except Exception: handler] *)
Definition try_except {A : Type} (body : result A) (handler : exn -> result A)
  : result A :=
  match body with
  | Ok a => Ok a
  | Raise e => handler e
  end.

Definition is_ok {A : Type} (c : result A) : bool :=
  match c with Ok _ => true | Raise _ => false end.

(** [[f(x) for x in xs]]: the comprehension stops at the first call that
    raises. *)
Fixpoint list_comprehension {A B : Type} (f : A -> result B) (xs : list A)
  : result (list B) :=
  match xs with
  | [] => Ok []
  | x :: xs' =>
      y ← f x;
      ys ← list_comprehension f xs';
      Ok (y :: ys)
  end.

(** ** Python arithmetic on numbers *)

Definition Qltb (a b : Q) : bool := negb (Qle_bool b a).

(** [min(a, b)]: the first argument unless the second is smaller. *)
Definition py_min (a b : Q) : Q := if Qltb b a then b else a.

(** [max(a, b)]: the first argument unless the second is larger. *)
Definition py_max (a b : Q) : Q := if Qltb a b then b else a.

(** [a / b] on Python numbers. *)
Definition py_truediv (a b : Q) : result Q :=
  if Qeq_bool b 0 then Raise ZeroDivisionError else Ok (a / b).

(** [len(xs)] as a number. *)
Definition len {A : Type} (xs : list A) : Q := inject_Z (Z.of_nat (length xs)).

(** [sum(xs)] *)
Definition py_sum (xs : list Q) : Q := fold_left Qplus xs 0.

(** [d[key]] *)
Definition getitem {V : Type} (d : gmap string V) (key : string) : result V :=
  match d !! key with
  | Some v => Ok v
  | None => Raise (KeyError key)
  end.

(** [list(d.values())] *)
Definition values {V : Type} (d : gmap string V) : list V :=
  (map_to_list d).*2.

(** [d.update(other)]: the entries of [other] win. *)
Definition update {V : Type} (d other : gmap string V) : gmap string V :=
  other ∪ d.

(** ** The parts of numpy the scorer uses *)

Inductive npfloat : Type :=
| Fin (q : Q)
| NaN.

Definition npfloat_mul (a : npfloat) (w : Q) : npfloat :=
  match a with Fin q => Fin (q * w) | NaN => NaN end.

Definition npfloat_add (a b : npfloat) : npfloat :=
  match a, b with Fin p, Fin q => Fin (p + q) | _, _ => NaN end.

Definition npfloat_div (a : npfloat) (d : Q) : npfloat :=
  match a with Fin q => Fin (q / d) | NaN => NaN end.

(** [np.mean(xs)]: the sum over the count; [nan] (and a warning) on an empty
    list. *)
Definition np_mean (xs : list Q) : npfloat :=
  match xs with
  | [] => NaN
  | _ => Fin (py_sum xs / len xs)
  end.

Fixpoint np_multiply (a : list npfloat) (wgt : list Q) : list npfloat :=
  match a, wgt with
  | x :: a', w :: wgt' => npfloat_mul x w :: np_multiply a' wgt'
  | _, _ => []
  end.

Definition np_sum (a : list npfloat) : npfloat :=
  fold_left npfloat_add a (Fin 0).

(** [np.average(a, weights=wgt)] on one-dimensional arrays: the weights are
    summed first and a zero sum raises. *)
Definition np_average (a : list npfloat) (wgt : list Q) : result npfloat :=
  if negb (Nat.eqb (length a) (length wgt)) then
    Raise (ValueError "Shape of weights must be consistent with shape of a")
  else
    let scl := py_sum wgt in
    if Qeq_bool scl 0 then Raise ZeroDivisionError
    else Ok (npfloat_div (np_sum (np_multiply a wgt)) scl).

(** [np.clip(x, a_min, a_max)] = [minimum(a_max, maximum(x, a_min))]; a [nan]
    stays a [nan]. *)
Definition np_clip (x : npfloat) (a_min a_max : Q) : npfloat :=
  match x with
  | Fin q => Fin (Qmin a_max (Qmax q a_min))
  | NaN => NaN
  end.

(** ** config.py *)

Record Config : Type := {
  READABILITY_WEIGHT : Q;
  LINGUISTIC_WEIGHT : Q;
  TRANSLATION_WEIGHT : Q;
  EMBEDDING_MODEL : string;
  SPACY_MODEL : string;
  LOW_COMPLEXITY_THRESHOLD : Q;
  MEDIUM_COMPLEXITY_THRESHOLD : Q;
  HIGH_COMPLEXITY_THRESHOLD : Q
}.

(** The constructor the [@dataclass] decorator generates: it stores its
    arguments; the class has no [__post_init__]. *)
Definition Config_init (readability_weight linguistic_weight translation_weight : Q)
    (embedding_model spacy_model : string)
    (low medium high : Q) : result Config :=
  Ok {| READABILITY_WEIGHT := readability_weight;
        LINGUISTIC_WEIGHT := linguistic_weight;
        TRANSLATION_WEIGHT := translation_weight;
        EMBEDDING_MODEL := embedding_model;
        SPACY_MODEL := spacy_model;
        LOW_COMPLEXITY_THRESHOLD := low;
        MEDIUM_COMPLEXITY_THRESHOLD := medium;
        HIGH_COMPLEXITY_THRESHOLD := high |}.

(** [Config()] with the field defaults of the class. *)
Definition default_Config : Config :=
  {| READABILITY_WEIGHT := 0.3;
     LINGUISTIC_WEIGHT := 0.4;
     TRANSLATION_WEIGHT := 0.3;
     EMBEDDING_MODEL := "sentence-transformers/all-MiniLM-L6-v2";
     SPACY_MODEL := "en_core_web_sm";
     LOW_COMPLEXITY_THRESHOLD := 0.25;
     MEDIUM_COMPLEXITY_THRESHOLD := 0.45;
     HIGH_COMPLEXITY_THRESHOLD := 0.65 |}.

Definition get_metric_weights (self : Config) : gmap string Q :=
  <["translation" := TRANSLATION_WEIGHT self]>
    (<["linguistic" := LINGUISTIC_WEIGHT self]>
       (<["readability" := READABILITY_WEIGHT self]> ∅)).

Definition get_complexity_level (self : Config) (score : Q) : string :=
  if Qltb score (LOW_COMPLEXITY_THRESHOLD self) then "low"
  else if Qltb score (MEDIUM_COMPLEXITY_THRESHOLD self) then "medium"
  else if Qltb score (HIGH_COMPLEXITY_THRESHOLD self) then "high"
  else "very_high".

(** ** The collaborators *)

(** A spaCy token: its text, its punctuation flag and its syntactic head.  A
    dependency parse is a forest: a token is either the root of its sentence,
    which spaCy makes its own head ([token.head == token]), or it has another
    token as head. *)
Inductive Token : Type :=
| Root (text : string) (is_punct : bool)
| Child (text : string) (is_punct : bool) (head : Token).

Definition token_text (t : Token) : string :=
  match t with Root text _ | Child text _ _ => text end.

Definition token_is_punct (t : Token) : bool :=
  match t with Root _ is_punct | Child _ is_punct _ => is_punct end.

(** A sentence ([Span]) is the list of its tokens. *)
Definition Span : Type := list Token.

(** A generator object.  It has neither [__bool__] nor [__len__], so its
    truth value is [True] whatever it is going to yield; [list(g)] collects
    what it yields. *)
Inductive generator (A : Type) : Type :=
| Generator (yields : list A).

Arguments Generator {A} yields.

Definition py_bool_generator {A : Type} (g : generator A) : bool := true.

Definition py_list_generator {A : Type} (g : generator A) : list A :=
  match g with Generator yields => yields end.

(** A parsed document: iterating over it gives its tokens, and the property
    [doc.sents] gives a fresh generator of its sentences at every access. *)
Record Doc : Type := {
  doc_tokens : list Token;
  doc_sentences : list Span
}.

Definition sents (doc : Doc) : generator Span := Generator (doc_sentences doc).

Record Collaborators : Type := {
  (** [textstat.flesch_kincaid_grade(text)] and its four siblings *)
  flesch_kincaid_grade : string -> result Q;
  coleman_liau_index : string -> result Q;
  gunning_fog : string -> result Q;
  smog_index : string -> result Q;
  flesch_reading_ease : string -> result Q;
  (** [self.nlp(text)], the spaCy pipeline *)
  nlp : string -> result Doc;
  (** the tokenizer and the model, up to the number that
      [torch.norm(outputs.last_hidden_state.mean(dim=1), dim=1).mean().item()]
      returns *)
  embedding_norm : string -> result Q
}.

(** ** Python strings *)

Definition lower_ascii (c : ascii) : ascii :=
  let n := nat_of_ascii c in
  if (Nat.leb 65 n && Nat.leb n 90)%bool then ascii_of_nat (n + 32) else c.

(** [s.lower()] *)
Fixpoint lower (s : string) : string :=
  match s with
  | EmptyString => EmptyString
  | String c s' => String (lower_ascii c) (lower s')
  end.

(** The characters [str.split()] treats as separators. *)
Definition is_whitespace (c : ascii) : bool :=
  match c with
  | "009" | "010" | "011" | "012" | "013"
  | "028" | "029" | "030" | "031" | " " => true
  | _ => false
  end%char.

Fixpoint split_from (cur : string) (s : string) : list string :=
  match s with
  | EmptyString => if decide (cur = "") then [] else [cur]
  | String c s' =>
      if is_whitespace c then
        (if decide (cur = "") then split_from "" s'
         else cur :: split_from "" s')
      else split_from (cur ++ String c "") s'
  end.

(** [s.split()]: the maximal runs of non-whitespace characters. *)
Definition split (s : string) : list string := split_from "" s.

(** [sep.join(ws)] *)
Definition join (sep : string) (ws : list string) : string :=
  String.concat sep ws.

(** [xs[i:j]] for [0 <= i <= j] *)
Definition slice {A : Type} (xs : list A) (i j : nat) : list A :=
  firstn (j - i) (skipn i xs).

(** ** metrics/readability.py *)

Module ReadabilityMetrics.

(** The normalisation loop of [score]:
    [for metric, score in scores.items(): normalized_scores[metric] = ...] *)
Definition normalize (scores : gmap string Q) : gmap string Q :=
  map_imap (λ metric score,
    Some (if decide (metric = "flesch_reading_ease")
          then 1.0 - (score / 120.0)
          else score / 25.0)) scores.

(** The dictionary of the [except] branch. *)
Definition default_scores : gmap string Q :=
  <["flesch_reading_ease" := 0.0]>
    (<["smog" := 0.0]>
       (<["gunning_fog" := 0.0]>
          (<["coleman_liau" := 0.0]>
             (<["flesch_kincaid" := 0.0]> ∅)))).

(** The body of the [try] block up to the normalisation. *)
Definition clamped_scores (env : Collaborators) (text : string)
  : result (gmap string Q) :=
  let scores : gmap string Q := ∅ in
  fk ← flesch_kincaid_grade env text;
  let scores := <["flesch_kincaid" := py_max 0 (py_min 20 fk)]> scores in
  cl ← coleman_liau_index env text;
  let scores := <["coleman_liau" := py_max 0 (py_min 20 cl)]> scores in
  gf ← gunning_fog env text;
  let scores := <["gunning_fog" := py_max 0 (py_min 20 gf)]> scores in
  sm ← smog_index env text;
  let scores := <["smog" := py_max 0 (py_min 20 sm)]> scores in
  fre ← flesch_reading_ease env text;
  let scores := <["flesch_reading_ease" := py_max 0 (py_min 100 fre)]> scores in
  Ok scores.

Definition score (env : Collaborators) (text : string)
  : result (gmap string Q) :=
  try_except
    (scores ← clamped_scores env text;
     Ok (normalize scores))
    (λ e, Ok default_scores).

End ReadabilityMetrics.

(** ** metrics/linguistic.py *)

Module LinguisticMetrics.

Definition _calculate_avg_sentence_length (doc : Doc) : result Q :=
  if negb (py_bool_generator (sents doc)) then Ok 0.0
  else
    py_truediv
      (py_sum (map (λ sent : Span, len sent) (py_list_generator (sents doc))))
      (len (py_list_generator (sents doc))).

Definition content_words (doc : Doc) : list string :=
  map (λ token, lower (token_text token))
      (filter (λ token, token_is_punct token = false) (doc_tokens doc)).

Definition _calculate_lexical_diversity (doc : Doc) : result Q :=
  let tokens := content_words doc in
  match tokens with
  | [] => Ok 0.0
  | _ =>
      py_truediv
        (inject_Z (Z.of_nat (size (list_to_set tokens : gset string))))
        (len tokens)
  end.

(** The inner [while current.head != current] loop: the number of head
    links between a token and the root of its sentence. *)
Fixpoint head_depth (current : Token) : nat :=
  match current with
  | Root _ _ => 0
  | Child _ _ head => S (head_depth head)
  end.

Definition sentence_max_depth (sent : Span) : nat :=
  fold_left (λ max_depth token, Nat.max max_depth (head_depth token)) sent 0%nat.

Definition _calculate_syntactic_complexity (doc : Doc) : result Q :=
  if negb (py_bool_generator (sents doc)) then Ok 0.0
  else
    let depths :=
      map (λ sent, inject_Z (Z.of_nat (sentence_max_depth sent)))
          (py_list_generator (sents doc)) in
    py_truediv (py_sum depths) (len depths).

Definition common_words : gset string :=
  list_to_set
    ["the"; "be"; "to"; "of"; "and"; "a"; "in"; "that"; "have"; "i";
     "it"; "for"; "not"; "on"; "with"; "he"; "as"; "you"; "do"; "at";
     "this"; "but"; "his"; "by"; "from"; "they"; "we"; "say"; "her"; "she";
     "or"; "an"; "will"; "my"; "one"; "all"; "would"; "there"; "their";
     "what"; "so"; "up"; "out"; "if"; "about"; "who"; "get"; "which"; "go";
     "me"; "when"; "make"; "can"; "like"; "time"; "no"; "just"; "him"; "know";
     "take"; "people"; "into"; "year"; "your"; "good"; "some"; "could"; "them";
     "see"; "other"; "than"; "then"; "now"; "look"; "only"; "come"; "its";
     "over"; "think"; "also"; "back"; "after"; "use"; "two"; "how"; "our";
     "work"; "first"; "well"; "way"; "even"; "new"; "want"; "because"; "any";
     "these"; "give"; "day"; "most"; "us"].

Definition _calculate_vocabulary_rarity (doc : Doc) : result Q :=
  let words := content_words doc in
  match words with
  | [] => Ok 0.0
  | _ =>
      let rare_words :=
        filter (λ w, w ∉ common_words) words in
      py_truediv (len rare_words) (len words)
  end.

(** The second half of [score]: from the raw scores to the normalised
    ones. *)
Definition normalize (raw_scores : gmap string Q) : result (gmap string Q) :=
  let scores : gmap string Q := ∅ in
  asl ← getitem raw_scores "avg_sentence_length";
  let scores := <["avg_sentence_length" := py_min (asl / 30.0) 1.0]> scores in
  ld ← getitem raw_scores "lexical_diversity";
  let scores := <["lexical_diversity" := ld * 0.6]> scores in
  sc ← getitem raw_scores "syntactic_complexity";
  let scores := <["syntactic_complexity" := py_min (sc / 10.0) 1.0]> scores in
  vr ← getitem raw_scores "vocabulary_rarity";
  let scores := <["vocabulary_rarity" := vr * 0.5]> scores in
  Ok scores.

(** The first half of [score]: the dictionary display [raw_scores]. *)
Definition raw_scores (doc : Doc) : result (gmap string Q) :=
  asl ← _calculate_avg_sentence_length doc;
  ld ← _calculate_lexical_diversity doc;
  sc ← _calculate_syntactic_complexity doc;
  vr ← _calculate_vocabulary_rarity doc;
  Ok (<["vocabulary_rarity" := vr]>
        (<["syntactic_complexity" := sc]>
           (<["lexical_diversity" := ld]>
              (<["avg_sentence_length" := asl]> ∅)))).

Definition score (env : Collaborators) (text : string)
  : result (gmap string Q) :=
  doc ← nlp env text;
  raw ← raw_scores doc;
  normalize raw.

End LinguisticMetrics.

(** ** metrics/translation.py *)

Module TranslationMetrics.

Definition _calculate_semantic_complexity (env : Collaborators) (text : string)
  : result Q :=
  complexity ← embedding_norm env text;
  Ok (py_min (complexity / 10.0) 1.0).

Definition common_idioms : gset string :=
  list_to_set
    ["kick the bucket"; "raining cats and dogs"; "piece of cake";
     "let the cat out of the bag"; "hit the nail on the head"].

(** The counting loop: one increment per index [i] in
    [range(len(words) - 2)] whose three-word phrase is a known idiom. *)
Definition count_idioms (words : list string) : nat :=
  length
    (filter (λ i, join " " (slice words i (i + 3)) ∈ common_idioms)
            (seq 0 (length words - 2))).

Definition _calculate_idiomatic_density (text : string) : result Q :=
  let words := split (lower text) in
  match words with
  | [] => Ok 0.0
  | _ =>
      let idiom_count := inject_Z (Z.of_nat (count_idioms words)) in
      third ← py_truediv (len words) 3;
      density ← py_truediv idiom_count third;
      Ok (py_min density 1.0)
  end.

Definition common_terms : gset string :=
  list_to_set
    ["the"; "be"; "to"; "of"; "and"; "a"; "in"; "that"; "have"; "i";
     "it"; "for"; "not"; "on"; "with"; "he"; "as"; "you"; "do"; "at";
     "this"; "but"; "his"; "by"; "from"; "they"; "we"; "say"; "her"; "she"].

Definition _calculate_domain_specificity (text : string) : result Q :=
  let words := split (lower text) in
  match words with
  | [] => Ok 0.0
  | _ =>
      let domain_terms :=
        filter (λ w, w ∉ common_terms) words in
      py_truediv (len domain_terms) (len words)
  end.

Definition score (env : Collaborators) (text : string)
  : result (gmap string Q) :=
  let scores : gmap string Q := ∅ in
  sc ← _calculate_semantic_complexity env text;
  let scores := <["semantic_complexity" := sc]> scores in
  idi ← _calculate_idiomatic_density text;
  let scores := <["idiomatic_density" := idi]> scores in
  ds ← _calculate_domain_specificity text;
  let scores := <["domain_specificity" := ds]> scores in
  Ok scores.

End TranslationMetrics.

(** ** scorer.py *)

Module TranslationComplexityScorer.

Definition _calculate_overall_score (config : Config)
    (readability_scores linguistic_scores translation_scores : gmap string Q)
  : result npfloat :=
  let weights := get_metric_weights config in
  let readability_avg := np_mean (values readability_scores) in
  let linguistic_avg := np_mean (values linguistic_scores) in
  let translation_avg := np_mean (values translation_scores) in
  let category_scores := [readability_avg; linguistic_avg; translation_avg] in
  w_r ← getitem weights "readability";
  w_l ← getitem weights "linguistic";
  w_t ← getitem weights "translation";
  let category_weights := [w_r; w_l; w_t] in
  average ← np_average category_scores category_weights;
  Ok (np_clip average 0 1).

(** The returned dictionary holds floats; the metric values enter it as
    they are and [overall_complexity] is the only entry that can be a
    [nan]. *)
Definition score_text (env : Collaborators) (config : Config) (text : string)
  : result (gmap string npfloat) :=
  let scores : gmap string npfloat := ∅ in
  readability_scores ← ReadabilityMetrics.score env text;
  let scores := update scores (Fin <$> readability_scores) in
  linguistic_scores ← LinguisticMetrics.score env text;
  let scores := update scores (Fin <$> linguistic_scores) in
  translation_scores ← TranslationMetrics.score env text;
  let scores := update scores (Fin <$> translation_scores) in
  overall ← _calculate_overall_score config
              readability_scores linguistic_scores translation_scores;
  Ok (<["overall_complexity" := overall]> scores).

Definition batch_score (env : Collaborators) (config : Config)
    (texts : list string) : result (list (gmap string npfloat)) :=
  list_comprehension (score_text env config) texts.

End TranslationComplexityScorer.

(** ** Batch scoring and single scoring agree

    [batch_score(texts)] returns a list as long as [texts] whose i-th element
    is what [score_text] returns on the i-th text. *)

Definition batch_matches_single (env : Collaborators) (config : Config)
    (texts : list string) : Prop :=
  exists results : list (gmap string npfloat),
    TranslationComplexityScorer.batch_score env config texts = Ok results /\
    length results = length texts /\
    forall (i : nat) (text : string),
      texts !! i = Some text ->
      exists bundle,
        results !! i = Some bundle /\
        TranslationComplexityScorer.score_text env config text = Ok bundle.

(** ** The four grade-level metrics of the readability provider *)

Definition grade_level_metric (metric : string) : Prop :=
  metric = "flesch_kincaid" \/ metric = "coleman_liau" \/
  metric = "gunning_fog" \/ metric = "smog".

(** ** Binary64 evaluation of the rounding-sensitive expressions *)





(** ** The order of the complexity labels *)

(** The position of a label in the scale low < medium < high < very_high. *)
Definition level_rank (label : string) : nat :=
  if decide (label = "low") then 0
  else if decide (label = "medium") then 1
  else if decide (label = "high") then 2
  else 3.

(** ** The key sets of the three providers *)

Definition readability_keys : gset string :=
  {["flesch_kincaid"; "coleman_liau"; "gunning_fog"; "smog";
    "flesch_reading_ease"]}.

Definition linguistic_keys : gset string :=
  {["avg_sentence_length"; "lexical_diversity"; "syntactic_complexity";
    "vocabulary_rarity"]}.

Definition translation_keys : gset string :=
  {["semantic_complexity"; "idiomatic_density"; "domain_specificity"]}.

(** ** Words without blanks *)

(** Whether a string holds a character that [str.split()] splits at. *)
Fixpoint contains_whitespace (s : string) : bool :=
  match s with
  | EmptyString => false
  | String c s' => is_whitespace c || contains_whitespace s'
  end.

(** ** A small set of collaborators to run the pipeline on

    [demo_env] stands in for the libraries: constant readability formulas, a
    blank pipeline with a whitespace tokenizer in which every word is the
    root of its own tree and a non-empty text is one sentence (the empty
    text parses to the empty document, without sentences, as in spaCy), and
    a constant embedding norm. *)

Definition whitespace_nlp (text : string) : result Doc :=
  let tokens := map (λ w, Root w false) (split text) in
  Ok {| doc_tokens := tokens;
        doc_sentences := match tokens with [] => [] | _ => [tokens] end |}.

Definition demo_env : Collaborators :=
  {| flesch_kincaid_grade := λ _, Ok 2.5;
     coleman_liau_index := λ _, Ok 30;
     gunning_fog := λ _, Ok (-3.1);
     smog_index := λ _, Ok 0;
     flesch_reading_ease := λ _, Ok 116.1;
     nlp := whitespace_nlp;
     embedding_norm := λ _, Ok 3.2 |}.

(** The same collaborators with a readability formula that raises. *)
Definition failing_textstat_env : Collaborators :=
  {| flesch_kincaid_grade := λ _, Ok 2.5;
     coleman_liau_index := λ _, Ok 30;
     gunning_fog := λ _, Raise ZeroDivisionError;
     smog_index := λ _, Ok 0;
     flesch_reading_ease := λ _, Ok 116.1;
     nlp := whitespace_nlp;
     embedding_norm := λ _, Ok 3.2 |}.

(** * Properties *)

(** ** Comparisons, [min] and [max] *)

Lemma Qltb_lt (a b : Q) : Qltb a b = true <-> a < b.
Proof.
  unfold Qltb. rewrite negb_true_iff.
  destruct (Qle_bool b a) eqn:E.
  - apply Qle_bool_iff in E. split; [discriminate | intros H].
    exfalso. apply (Qlt_not_le _ _ H E).
  - split; [intros _ | reflexivity].
    apply Qnot_le_lt. intros H. apply Qle_bool_iff in H. congruence.
Qed.

Lemma Qltb_ge (a b : Q) : Qltb a b = false <-> b <= a.
Proof.
  unfold Qltb. rewrite negb_false_iff. apply Qle_bool_iff.
Qed.

(** Case analysis on a comparison, leaving its meaning in the context. *)
Ltac case_Qltb a b :=
  let E := fresh "E" in
  destruct (Qltb a b) eqn:E;
  [apply Qltb_lt in E | apply Qltb_ge in E].

(** Turn the divisions by literals of a goal into multiplications, which
    [lra] understands. *)
Ltac q_literals :=
  unfold Qdiv in *;
  repeat match goal with
  | |- context [ / ?c ] =>
      let c' := eval vm_compute in (/ c) in change (/ c) with c'
  | H : context [ / ?c ] |- _ =>
      let c' := eval vm_compute in (/ c) in change (/ c) with c' in H
  end.

Lemma py_min_spec (a b : Q) : py_min a b == Qmin a b.
Proof.
  unfold py_min. case_Qltb b a.
  - symmetry. apply Q.min_r. lra.
  - symmetry. apply Q.min_l. exact E.
Qed.


Lemma py_min_le_r (a b : Q) : py_min a b <= b.
Proof. unfold py_min. case_Qltb b a; lra. Qed.

Lemma py_min_le_l (a b : Q) : py_min a b <= a.
Proof. unfold py_min. case_Qltb b a; lra. Qed.

Lemma py_min_glb (a b c : Q) : c <= a -> c <= b -> c <= py_min a b.
Proof. unfold py_min. case_Qltb b a; lra. Qed.

Lemma py_clamp_bounds (lo hi x : Q) :
  lo <= hi -> lo <= py_max lo (py_min hi x) /\ py_max lo (py_min hi x) <= hi.
Proof.
  intros Hlh. unfold py_max, py_min.
  case_Qltb x hi; [case_Qltb lo x | case_Qltb lo hi]; lra.
Qed.

(** ** The classifier *)

Lemma get_complexity_level_cases (cfg : Config) (s : Q) :
  (s < LOW_COMPLEXITY_THRESHOLD cfg /\ get_complexity_level cfg s = "low") \/
  (LOW_COMPLEXITY_THRESHOLD cfg <= s /\ s < MEDIUM_COMPLEXITY_THRESHOLD cfg /\
   get_complexity_level cfg s = "medium") \/
  (LOW_COMPLEXITY_THRESHOLD cfg <= s /\ MEDIUM_COMPLEXITY_THRESHOLD cfg <= s /\
   s < HIGH_COMPLEXITY_THRESHOLD cfg /\ get_complexity_level cfg s = "high") \/
  (LOW_COMPLEXITY_THRESHOLD cfg <= s /\ MEDIUM_COMPLEXITY_THRESHOLD cfg <= s /\
   HIGH_COMPLEXITY_THRESHOLD cfg <= s /\ get_complexity_level cfg s = "very_high").
Proof.
  unfold get_complexity_level.
  case_Qltb s (LOW_COMPLEXITY_THRESHOLD cfg); [tauto |].
  case_Qltb s (MEDIUM_COMPLEXITY_THRESHOLD cfg); [tauto |].
  case_Qltb s (HIGH_COMPLEXITY_THRESHOLD cfg); tauto.
Qed.

(** C2. With ascending thresholds, [get_complexity_level] returns "low"
    exactly below the low threshold, "medium" exactly on [low, medium),
    "high" exactly on [medium, high) and "very_high" exactly from the high
    threshold on; it always returns one of the four labels; and with the
    default thresholds (0.25, 0.45, 0.65) it maps 0.0 to "low", 0.25 and
    0.449 to "medium", 0.45 to "high" and 1.0 to "very_high". *)
Theorem get_complexity_level_bands (cfg : Config) (s : Q)
    (Hlm : LOW_COMPLEXITY_THRESHOLD cfg < MEDIUM_COMPLEXITY_THRESHOLD cfg)
    (Hmh : MEDIUM_COMPLEXITY_THRESHOLD cfg < HIGH_COMPLEXITY_THRESHOLD cfg) :
  (get_complexity_level cfg s = "low" <-> s < LOW_COMPLEXITY_THRESHOLD cfg) /\
  (get_complexity_level cfg s = "medium" <->
     LOW_COMPLEXITY_THRESHOLD cfg <= s /\ s < MEDIUM_COMPLEXITY_THRESHOLD cfg) /\
  (get_complexity_level cfg s = "high" <->
     MEDIUM_COMPLEXITY_THRESHOLD cfg <= s /\ s < HIGH_COMPLEXITY_THRESHOLD cfg) /\
  (get_complexity_level cfg s = "very_high" <->
     HIGH_COMPLEXITY_THRESHOLD cfg <= s) /\
  (get_complexity_level cfg s = "low" \/ get_complexity_level cfg s = "medium" \/
   get_complexity_level cfg s = "high" \/ get_complexity_level cfg s = "very_high") /\
  (get_complexity_level default_Config 0.0 = "low" /\
   get_complexity_level default_Config 0.25 = "medium" /\
   get_complexity_level default_Config 0.449 = "medium" /\
   get_complexity_level default_Config 0.45 = "high" /\
   get_complexity_level default_Config 1.0 = "very_high").
Proof.
  destruct (get_complexity_level_cases cfg s)
    as [[H1 ->] | [(H1 & H2 & ->) | [(H1 & H2 & H3 & ->) | (H1 & H2 & H3 & ->)]]];
    (repeat split; try tauto; try discriminate; try lra;
     try (intros; exfalso; lra)).
Qed.

(** The default thresholds are ascending, and 0.5 falls in the "high" band. *)
Lemma get_complexity_level_bands_witness :
  LOW_COMPLEXITY_THRESHOLD default_Config < MEDIUM_COMPLEXITY_THRESHOLD default_Config /\
  MEDIUM_COMPLEXITY_THRESHOLD default_Config < HIGH_COMPLEXITY_THRESHOLD default_Config /\
  (get_complexity_level default_Config 0.5 = "high" <->
     MEDIUM_COMPLEXITY_THRESHOLD default_Config <= 0.5 /\
     0.5 < HIGH_COMPLEXITY_THRESHOLD default_Config).
Proof.
  assert (Hlm : LOW_COMPLEXITY_THRESHOLD default_Config
                < MEDIUM_COMPLEXITY_THRESHOLD default_Config) by reflexivity.
  assert (Hmh : MEDIUM_COMPLEXITY_THRESHOLD default_Config
                < HIGH_COMPLEXITY_THRESHOLD default_Config) by reflexivity.
  split; [exact Hlm | split; [exact Hmh |]].
  exact (proj1 (proj2 (proj2 (get_complexity_level_bands default_Config 0.5 Hlm Hmh)))).
Defined.

(** ** The aggregators *)

Import TranslationComplexityScorer.

Lemma values_nonempty {V : Type} (d : gmap string V) : d ≠ ∅ -> values d ≠ [].
Proof.
  intros Hd Hv. apply Hd. apply map_to_list_empty_iff.
  unfold values in Hv. apply fmap_nil_inv in Hv. exact Hv.
Qed.


Lemma np_mean_nonempty (xs : list Q) :
  xs ≠ [] -> np_mean xs = Fin (py_sum xs / len xs).
Proof. destruct xs; [congruence | reflexivity]. Qed.

Lemma getitem_weights (cfg : Config) :
  getitem (get_metric_weights cfg) "readability" = Ok (READABILITY_WEIGHT cfg) /\
  getitem (get_metric_weights cfg) "linguistic" = Ok (LINGUISTIC_WEIGHT cfg) /\
  getitem (get_metric_weights cfg) "translation" = Ok (TRANSLATION_WEIGHT cfg).
Proof.
  unfold getitem, get_metric_weights. repeat split; by simplify_map_eq.
Qed.

(** What [_calculate_overall_score] computes once the three lookups of the
    weights are done. *)
Lemma _calculate_overall_score_unfold (cfg : Config)
    (r l t : gmap string Q) :
  _calculate_overall_score cfg r l t =
    (average ← np_average
       [np_mean (values r); np_mean (values l); np_mean (values t)]
       [READABILITY_WEIGHT cfg; LINGUISTIC_WEIGHT cfg; TRANSLATION_WEIGHT cfg];
     Ok (np_clip average 0 1)).
Proof.
  unfold _calculate_overall_score.
  destruct (getitem_weights cfg) as (-> & -> & ->). reflexivity.
Qed.

Lemma np_clip_unit (x : Q) :
  exists v, np_clip (Fin x) 0 1 = Fin v /\ 0 <= v /\ v <= 1 /\
            (1 < x -> v == 1) /\ (x < 0 -> v == 0) /\
            (0 <= x -> x <= 1 -> v == x).
Proof.
  eexists. split; [reflexivity |].
  destruct (Q.max_spec x 0) as [[H1 H2] | [H1 H2]];
    destruct (Q.min_spec 1 (Qmax x 0)) as [[H3 H4] | [H3 H4]];
    rewrite H4; rewrite H2 in *; repeat split; intros; lra.
Qed.

Lemma np_average_finite (a b c w_a w_b w_c : Q) :
  ~ w_a + w_b + w_c == 0 ->
  exists x, np_average [Fin a; Fin b; Fin c] [w_a; w_b; w_c] = Ok (Fin x) /\
            x == (a * w_a + b * w_b + c * w_c) / (w_a + w_b + w_c).
Proof.
  intros Hw. unfold np_average.
  change (negb (length [Fin a; Fin b; Fin c] =? length [w_a; w_b; w_c])%nat)
    with false. cbv iota.
  assert (Hs : py_sum [w_a; w_b; w_c] == w_a + w_b + w_c)
    by (unfold py_sum; simpl; ring).
  destruct (Qeq_bool _ 0) eqn:E.
  - exfalso. apply Hw. apply Qeq_bool_iff in E. rewrite <- Hs. exact E.
  - eexists. split; [reflexivity |].
    rewrite Hs. unfold py_sum. simpl. field. exact Hw.
Qed.

(** C1. Whatever the three category dictionaries, hence whatever their
    averages [r], [l] and [t], and whatever the weights, provided these do
    not sum to zero, [_calculate_overall_score] returns a number between 0
    and 1 inclusive: it is 1 when the weighted average of [r], [l] and [t]
    exceeds 1, 0 when that average is negative, and the average itself
    otherwise. *)
Theorem overall_complexity_in_unit_interval (cfg : Config)
    (readability_scores linguistic_scores translation_scores : gmap string Q)
    (Hw : ~ READABILITY_WEIGHT cfg + LINGUISTIC_WEIGHT cfg + TRANSLATION_WEIGHT cfg == 0)
    (Hr : readability_scores ≠ ∅)
    (Hl : linguistic_scores ≠ ∅)
    (Ht : translation_scores ≠ ∅) :
  exists r l t overall : Q,
    np_mean (values readability_scores) = Fin r /\
    np_mean (values linguistic_scores) = Fin l /\
    np_mean (values translation_scores) = Fin t /\
    _calculate_overall_score cfg
      readability_scores linguistic_scores translation_scores = Ok (Fin overall) /\
    0 <= overall /\ overall <= 1 /\
    let weighted_average :=
      (r * READABILITY_WEIGHT cfg + l * LINGUISTIC_WEIGHT cfg
       + t * TRANSLATION_WEIGHT cfg)
      / (READABILITY_WEIGHT cfg + LINGUISTIC_WEIGHT cfg + TRANSLATION_WEIGHT cfg) in
    (1 < weighted_average -> overall == 1) /\
    (weighted_average < 0 -> overall == 0) /\
    (0 <= weighted_average -> weighted_average <= 1 -> overall == weighted_average).
Proof.
  rewrite _calculate_overall_score_unfold.
  rewrite !np_mean_nonempty by (by apply values_nonempty).
  match goal with
  | |- context [np_average [Fin ?a; Fin ?b; Fin ?c] _] =>
      exists a, b, c;
      destruct (np_average_finite a b c _ _ _ Hw) as (x & -> & Hx)
  end.
  destruct (np_clip_unit x) as (v & Hv & H0 & H1 & Hhi & Hlo & Hmid).
  exists v. do 3 (split; [reflexivity |]).
  split; [change (Ok (np_clip (Fin x) 0 1) = Ok (Fin v)); by rewrite Hv |].
  split; [exact H0 | split; [exact H1 |]].
  cbv zeta. rewrite <- Hx. split; [exact Hhi | split; [exact Hlo |]].
  intros Ha Hb. by apply Hmid.
Qed.

Lemma fold_left_Qplus (xs : list Q) (a : Q) :
  fold_left Qplus xs a == a + fold_right Qplus 0 xs.
Proof.
  revert a. induction xs as [| x xs IH]; intros a; simpl.
  - ring.
  - rewrite IH. ring.
Qed.

Lemma len_nonzero {A : Type} (xs : list A) : xs ≠ [] -> ~ len xs == 0.
Proof.
  destruct xs as [| x xs]; [congruence |]. intros _ H.
  unfold len, Qeq in H. simpl in H. lia.
Qed.




(** Three one-entry dictionaries whose weighted average, 4, exceeds 1: the
    overall score is cut to 1. *)
Lemma overall_complexity_in_unit_interval_witness :
  (~ READABILITY_WEIGHT default_Config + LINGUISTIC_WEIGHT default_Config
     + TRANSLATION_WEIGHT default_Config == 0) /\
  exists overall : Q,
    _calculate_overall_score default_Config
      {["flesch_kincaid" := 3]} {["lexical_diversity" := 4]}
      {["semantic_complexity" := 5]} = Ok (Fin overall) /\
    0 <= overall /\ overall <= 1.
Proof.
  assert (Hw : ~ READABILITY_WEIGHT default_Config + LINGUISTIC_WEIGHT default_Config
                 + TRANSLATION_WEIGHT default_Config == 0)
    by (intros H; discriminate H).
  split; [exact Hw |].
  destruct (overall_complexity_in_unit_interval default_Config
              {["flesch_kincaid" := 3]} {["lexical_diversity" := 4]}
              {["semantic_complexity" := 5]} Hw
              (map_non_empty_singleton _ _) (map_non_empty_singleton _ _)
              (map_non_empty_singleton _ _))
    as (r & l & t & overall & _ & _ & _ & Ho & H0 & H1 & _).
  exists overall. split; [exact Ho | split; [exact H0 | exact H1]].
Defined.


(** ** Configurations with zero weights *)

Lemma np_average_zero_weights (a b c : npfloat) :
  np_average [a; b; c] [0; 0; 0] = Raise ZeroDivisionError.
Proof. reflexivity. Qed.

(** C7, as the code has it. Constructing a configuration whose three weights
    are zero succeeds, whatever its other fields: the class validates
    nothing.  The failure comes later, at scoring time:
    [_calculate_overall_score] raises [ZeroDivisionError] on every triple of
    category dictionaries. *)
Theorem zero_weights_accepted_then_scoring_raises
    (embedding_model spacy_model : string) (low medium high : Q) :
  exists cfg : Config,
    Config_init 0 0 0 embedding_model spacy_model low medium high = Ok cfg /\
    READABILITY_WEIGHT cfg = 0 /\ LINGUISTIC_WEIGHT cfg = 0 /\
    TRANSLATION_WEIGHT cfg = 0 /\
    forall readability_scores linguistic_scores translation_scores : gmap string Q,
      _calculate_overall_score cfg
        readability_scores linguistic_scores translation_scores
      = Raise ZeroDivisionError.
Proof.
  eexists. do 4 (split; [reflexivity |]).
  intros r l t. rewrite _calculate_overall_score_unfold. reflexivity.
Qed.

(** C7 fails as stated: the all-zero configuration is constructed without
    any error, and scoring a text with it then raises the division by
    zero. *)
Lemma zero_weights_not_rejected :
  (~ exists e, Config_init 0 0 0 "sentence-transformers/all-MiniLM-L6-v2"
                 "en_core_web_sm" 0.25 0.45 0.65 = Raise e) /\
  exists cfg : Config,
    Config_init 0 0 0 "sentence-transformers/all-MiniLM-L6-v2"
      "en_core_web_sm" 0.25 0.45 0.65 = Ok cfg /\
    score_text demo_env cfg "The cat sat on the mat. It was a sunny day."
    = Raise ZeroDivisionError.
Proof.
  split.
  - intros [e He]. discriminate He.
  - eexists. split; [reflexivity |]. vm_compute. reflexivity.
Qed.

(** ** The readability provider *)

Lemma normalize_lookup (scores : gmap string Q) (metric : string) :
  ReadabilityMetrics.normalize scores !! metric =
    (λ raw, if decide (metric = "flesch_reading_ease")
            then 1.0 - raw / 120.0 else raw / 25.0) <$> scores !! metric.
Proof.
  unfold ReadabilityMetrics.normalize. rewrite map_lookup_imap.
  by destruct (scores !! metric).
Qed.

Lemma grade_level_not_reading_ease (metric : string) :
  grade_level_metric metric -> metric ≠ "flesch_reading_ease".
Proof. intros [-> | [-> | [-> | ->]]]; discriminate. Qed.

(** C4. For a raw value [raw] stored under [metric] in the dictionary the
    normalisation loop runs over: a grade-level metric is mapped to
    [raw / 25.0] and [flesch_reading_ease] to [1.0 - raw / 120.0], nothing
    else being applied, so that a grade-level value above 25 gives a result
    above 1; and on the success path [score] returns exactly the loop's
    result on the dictionary of raw values. *)
Theorem readability_normalizer_rules (scores : gmap string Q)
    (metric : string) (raw : Q)
    (Hraw : scores !! metric = Some raw) :
  (grade_level_metric metric ->
     ReadabilityMetrics.normalize scores !! metric = Some (raw / 25.0)) /\
  (metric = "flesch_reading_ease" ->
     ReadabilityMetrics.normalize scores !! metric = Some (1.0 - raw / 120.0)) /\
  (grade_level_metric metric -> 25 < raw ->
     exists v, ReadabilityMetrics.normalize scores !! metric = Some v /\ 1 < v) /\
  (forall env text,
     ReadabilityMetrics.clamped_scores env text = Ok scores ->
     ReadabilityMetrics.score env text = Ok (ReadabilityMetrics.normalize scores)).
Proof.
  rewrite normalize_lookup, Hraw. simpl.
  split; [| split; [| split]].
  - intros Hg. by rewrite decide_False by (by apply grade_level_not_reading_ease).
  - intros ->. reflexivity.
  - intros Hg Hgt. rewrite decide_False by (by apply grade_level_not_reading_ease).
    eexists. split; [reflexivity |]. q_literals. lra.
  - intros env text Hc. unfold ReadabilityMetrics.score. by rewrite Hc.
Qed.

(** A dictionary holding a grade level of 30: its normalised value is 30/25. *)
Lemma readability_normalizer_rules_witness :
  (<["flesch_kincaid" := 30]> ∅ : gmap string Q) !! "flesch_kincaid" = Some 30 /\
  exists v, ReadabilityMetrics.normalize (<["flesch_kincaid" := 30]> ∅)
              !! "flesch_kincaid" = Some v /\ 1 < v.
Proof.
  assert (Hraw : (<["flesch_kincaid" := 30]> ∅ : gmap string Q) !! "flesch_kincaid"
                 = Some 30) by reflexivity.
  split; [exact Hraw |].
  apply (proj1 (proj2 (proj2
           (readability_normalizer_rules _ "flesch_kincaid" 30 Hraw)))).
  - left. reflexivity.
  - reflexivity.
Defined.


Lemma clamped_scores_raise (env : Collaborators) (text : string) :
  (exists e, flesch_kincaid_grade env text = Raise e) \/
  (exists e, coleman_liau_index env text = Raise e) \/
  (exists e, gunning_fog env text = Raise e) \/
  (exists e, smog_index env text = Raise e) \/
  (exists e, flesch_reading_ease env text = Raise e) ->
  exists e, ReadabilityMetrics.clamped_scores env text = Raise e.
Proof.
  unfold ReadabilityMetrics.clamped_scores.
  intros Hfail.
  destruct (flesch_kincaid_grade env text) as [fk | e1]; [| by eexists].
  destruct (coleman_liau_index env text) as [cl | e2]; [| by eexists].
  destruct (gunning_fog env text) as [gf | e3]; [| by eexists].
  destruct (smog_index env text) as [sm | e4]; [| by eexists].
  destruct (flesch_reading_ease env text) as [fre | e5]; [| by eexists].
  exfalso. destruct Hfail as [[e H] | [[e H] | [[e H] | [[e H] | [e H]]]]];
    discriminate H.
Qed.

(** [score] has a result for every text: an exception of the formulas never
    leaves it. *)
Lemma readability_score_never_raises (env : Collaborators) (text : string) :
  exists scores, ReadabilityMetrics.score env text = Ok scores.
Proof.
  unfold ReadabilityMetrics.score.
  destruct (ReadabilityMetrics.clamped_scores env text); by eexists.
Qed.

(** C9. When one of the five readability formulas raises on a text, [score]
    returns the default dictionary, whose five entries are 0.0, and raises
    nothing. *)
Theorem readability_failure_gives_default (env : Collaborators) (text : string)
    (Hfail : (exists e, flesch_kincaid_grade env text = Raise e) \/
             (exists e, coleman_liau_index env text = Raise e) \/
             (exists e, gunning_fog env text = Raise e) \/
             (exists e, smog_index env text = Raise e) \/
             (exists e, flesch_reading_ease env text = Raise e)) :
  ReadabilityMetrics.score env text = Ok ReadabilityMetrics.default_scores /\
  ReadabilityMetrics.default_scores !! "flesch_kincaid" = Some 0.0 /\
  ReadabilityMetrics.default_scores !! "coleman_liau" = Some 0.0 /\
  ReadabilityMetrics.default_scores !! "gunning_fog" = Some 0.0 /\
  ReadabilityMetrics.default_scores !! "smog" = Some 0.0 /\
  ReadabilityMetrics.default_scores !! "flesch_reading_ease" = Some 0.0 /\
  size ReadabilityMetrics.default_scores = 5%nat.
Proof.
  split; [| by vm_compute].
  destruct (clamped_scores_raise env text Hfail) as [e He].
  unfold ReadabilityMetrics.score. by rewrite He.
Qed.

(** A provider whose Gunning fog formula raises. *)
Lemma readability_failure_gives_default_witness :
  (exists e, gunning_fog failing_textstat_env "" = Raise e) /\
  ReadabilityMetrics.score failing_textstat_env ""
  = Ok ReadabilityMetrics.default_scores.
Proof.
  assert (Hgf : exists e, gunning_fog failing_textstat_env "" = Raise e)
    by (exists ZeroDivisionError; reflexivity).
  split; [exact Hgf |].
  exact (proj1 (readability_failure_gives_default failing_textstat_env ""
                  (or_intror (or_intror (or_introl Hgf))))).
Defined.




(** ** The linguistic and the translation providers *)

Lemma py_truediv_ok (a b : Q) : ~ b == 0 -> py_truediv a b = Ok (a / b).
Proof.
  intros Hb. unfold py_truediv. destruct (Qeq_bool b 0) eqn:E; [| reflexivity].
  apply Qeq_bool_iff in E. contradiction.
Qed.

Lemma py_truediv_zero (a b : Q) : b == 0 -> py_truediv a b = Raise ZeroDivisionError.
Proof.
  intros Hb. unfold py_truediv. apply Qeq_bool_iff in Hb. by rewrite Hb.
Qed.

Lemma len_nonneg {A : Type} (xs : list A) : 0 <= len xs.
Proof.
  unfold len. change 0 with (inject_Z 0). rewrite <- Zle_Qle. lia.
Qed.

Lemma len_pos {A : Type} (xs : list A) : xs ≠ [] -> 0 < len xs.
Proof.
  intros Hne. destruct (Qle_lt_or_eq _ _ (len_nonneg xs)) as [H | H]; [exact H |].
  exfalso. apply (len_nonzero xs Hne). by symmetry.
Qed.

Lemma len_filter_le {A : Type} (P : A -> Prop) `{!∀ x, Decision (P x)}
    (xs : list A) :
  len (filter P xs) <= len xs.
Proof.
  unfold len. rewrite <- Zle_Qle. pose proof (length_filter P xs). lia.
Qed.

Lemma ratio_in_unit_interval (a b : Q) :
  0 <= a -> a <= b -> 0 < b -> 0 <= a / b /\ a / b <= 1.
Proof.
  intros Ha Hab Hb. split.
  - apply Qle_shift_div_l; [exact Hb | lra].
  - apply Qle_shift_div_r; [exact Hb | lra].
Qed.

Lemma idiomatic_density_in_unit_interval (text : string) :
  exists v, TranslationMetrics._calculate_idiomatic_density text = Ok v /\
            0 <= v /\ v <= 1.
Proof.
  unfold TranslationMetrics._calculate_idiomatic_density.
  destruct (split (lower text)) as [| w ws] eqn:Ew.
  - exists 0.0. split; [reflexivity | split; discriminate].
  - set (words := w :: ws).
    assert (Hpos : 0 < len words) by (by apply len_pos).
    rewrite (py_truediv_ok (len words) 3) by discriminate.
    assert (Hthird : 0 < len words / 3)
      by (apply Qlt_shift_div_l; [reflexivity | lra]).
    change (x ← Ok ?a; @?k x) with (k a). cbv beta.
    rewrite py_truediv_ok by lra.
    eexists. split; [reflexivity |]. split.
    + apply py_min_glb; [| discriminate].
      apply Qle_shift_div_l; [exact Hthird |].
      rewrite Qmult_0_l. change 0 with (inject_Z 0). rewrite <- Zle_Qle. lia.
    + eapply Qle_trans; [apply py_min_le_r | discriminate].
Qed.

Lemma domain_specificity_in_unit_interval (text : string) :
  exists v, TranslationMetrics._calculate_domain_specificity text = Ok v /\
            0 <= v /\ v <= 1.
Proof.
  unfold TranslationMetrics._calculate_domain_specificity.
  destruct (split (lower text)) as [| w ws] eqn:Ew.
  - exists 0.0. split; [reflexivity | split; discriminate].
  - set (words := w :: ws).
    assert (Hpos : 0 < len words) by (by apply len_pos).
    rewrite py_truediv_ok by lra.
    eexists. split; [reflexivity |].
    apply ratio_in_unit_interval;
      [apply len_nonneg | apply len_filter_le | exact Hpos].
Qed.

Lemma linguistic_normalize_lookups (raw : gmap string Q) (asl ld sc vr : Q) :
  raw !! "avg_sentence_length" = Some asl ->
  raw !! "lexical_diversity" = Some ld ->
  raw !! "syntactic_complexity" = Some sc ->
  raw !! "vocabulary_rarity" = Some vr ->
  LinguisticMetrics.normalize raw =
    Ok (<["vocabulary_rarity" := vr * 0.5]>
          (<["syntactic_complexity" := py_min (sc / 10.0) 1.0]>
             (<["lexical_diversity" := ld * 0.6]>
                (<["avg_sentence_length" := py_min (asl / 30.0) 1.0]> ∅)))).
Proof.
  intros H1 H2 H3 H4. unfold LinguisticMetrics.normalize, getitem.
  by rewrite H1, H2, H3, H4.
Qed.

Lemma translation_score_inv (env : Collaborators) (text : string)
    (scores : gmap string Q) :
  TranslationMetrics.score env text = Ok scores ->
  exists sc idi ds,
    TranslationMetrics._calculate_semantic_complexity env text = Ok sc /\
    TranslationMetrics._calculate_idiomatic_density text = Ok idi /\
    TranslationMetrics._calculate_domain_specificity text = Ok ds /\
    scores = <["domain_specificity" := ds]>
               (<["idiomatic_density" := idi]>
                  (<["semantic_complexity" := sc]> ∅)).
Proof.
  unfold TranslationMetrics.score.
  destruct (TranslationMetrics._calculate_semantic_complexity env text)
    as [sc | e]; [| discriminate].
  destruct (TranslationMetrics._calculate_idiomatic_density text)
    as [idi | e]; [| discriminate].
  destruct (TranslationMetrics._calculate_domain_specificity text)
    as [ds | e]; [| discriminate].
  intros [= <-]. by exists sc, idi, ds.
Qed.

(** C5. From a dictionary of raw linguistic values the normaliser produces
    [min(raw / 30.0, 1.0)] for [avg_sentence_length], [raw * 0.6] for
    [lexical_diversity], [min(raw / 10.0, 1.0)] for [syntactic_complexity]
    and [raw * 0.5] for [vocabulary_rarity], Python's [min] being the
    minimum; the semantic complexity is [min(raw / 10.0, 1.0)] of the
    embedding norm; the idiomatic density and the domain specificity are
    computed for every text and lie in [0, 1]; and [score] stores the three
    translation metrics as their functions return them. *)
Theorem linguistic_and_translation_normalizer_rules
    (raw : gmap string Q) (asl ld sc vr : Q)
    (Hasl : raw !! "avg_sentence_length" = Some asl)
    (Hld : raw !! "lexical_diversity" = Some ld)
    (Hsc : raw !! "syntactic_complexity" = Some sc)
    (Hvr : raw !! "vocabulary_rarity" = Some vr) :
  (exists scores : gmap string Q,
     LinguisticMetrics.normalize raw = Ok scores /\
     scores !! "avg_sentence_length" = Some (py_min (asl / 30.0) 1.0) /\
     scores !! "lexical_diversity" = Some (ld * 0.6) /\
     scores !! "syntactic_complexity" = Some (py_min (sc / 10.0) 1.0) /\
     scores !! "vocabulary_rarity" = Some (vr * 0.5) /\
     size scores = 4%nat) /\
  (forall env text doc,
     nlp env text = Ok doc ->
     LinguisticMetrics.raw_scores doc = Ok raw ->
     LinguisticMetrics.score env text = LinguisticMetrics.normalize raw) /\
  (forall x y : Q, py_min x y == Qmin x y) /\
  (forall env text complexity,
     embedding_norm env text = Ok complexity ->
     TranslationMetrics._calculate_semantic_complexity env text
     = Ok (py_min (complexity / 10.0) 1.0)) /\
  (forall text,
     exists v, TranslationMetrics._calculate_idiomatic_density text = Ok v /\
               0 <= v /\ v <= 1) /\
  (forall text,
     exists v, TranslationMetrics._calculate_domain_specificity text = Ok v /\
               0 <= v /\ v <= 1) /\
  (forall env text scores,
     TranslationMetrics.score env text = Ok scores ->
     exists semantic idiomatic domain,
       TranslationMetrics._calculate_semantic_complexity env text = Ok semantic /\
       TranslationMetrics._calculate_idiomatic_density text = Ok idiomatic /\
       TranslationMetrics._calculate_domain_specificity text = Ok domain /\
       scores !! "semantic_complexity" = Some semantic /\
       scores !! "idiomatic_density" = Some idiomatic /\
       scores !! "domain_specificity" = Some domain).
Proof.
  split; [| split; [| split; [| split; [| split; [| split]]]]].
  - eexists. split; [by apply linguistic_normalize_lookups |].
    by vm_compute.
  - intros env text doc Hdoc Hraw. unfold LinguisticMetrics.score.
    rewrite Hdoc. cbn [mbind result_bind]. by rewrite Hraw.
  - apply py_min_spec.
  - intros env text complexity Hnorm.
    unfold TranslationMetrics._calculate_semantic_complexity. by rewrite Hnorm.
  - apply idiomatic_density_in_unit_interval.
  - apply domain_specificity_in_unit_interval.
  - intros env text scores Hs.
    destruct (translation_score_inv env text scores Hs)
      as (s & i & d & H1 & H2 & H3 & ->).
    exists s, i, d. by repeat split.
Qed.

(** Raw values beyond both thresholds: a sentence length of 45 and a tree
    depth of 12 are cut to 1.0, the two ratios are only scaled. *)
Lemma linguistic_and_translation_normalizer_rules_witness :
  let raw : gmap string Q :=
    <["vocabulary_rarity" := 0.8]>
      (<["syntactic_complexity" := 12]>
         (<["lexical_diversity" := 1]>
            (<["avg_sentence_length" := 45]> ∅))) in
  (raw !! "avg_sentence_length" = Some 45 /\
   raw !! "lexical_diversity" = Some 1 /\
   raw !! "syntactic_complexity" = Some 12 /\
   raw !! "vocabulary_rarity" = Some 0.8) /\
  exists scores : gmap string Q,
    LinguisticMetrics.normalize raw = Ok scores /\
    scores !! "avg_sentence_length" = Some (py_min (45 / 30.0) 1.0) /\
    scores !! "lexical_diversity" = Some (1 * 0.6).
Proof.
  intros raw.
  assert (Hasl : raw !! "avg_sentence_length" = Some 45) by reflexivity.
  assert (Hld : raw !! "lexical_diversity" = Some 1) by reflexivity.
  assert (Hsc : raw !! "syntactic_complexity" = Some 12) by reflexivity.
  assert (Hvr : raw !! "vocabulary_rarity" = Some 0.8) by reflexivity.
  split; [by repeat split |].
  destruct (linguistic_and_translation_normalizer_rules
              raw 45 1 12 0.8 Hasl Hld Hsc Hvr)
    as [(scores & Hn & H1 & H2 & _) _].
  exists scores. split; [exact Hn | split; [exact H1 | exact H2]].
Defined.

(** ** The empty text *)

Lemma avg_sentence_length_no_sentences (doc : Doc) :
  doc_sentences doc = [] ->
  LinguisticMetrics._calculate_avg_sentence_length doc = Raise ZeroDivisionError.
Proof.
  intros Hs. unfold LinguisticMetrics._calculate_avg_sentence_length, sents.
  rewrite Hs. reflexivity.
Qed.

Lemma syntactic_complexity_no_sentences (doc : Doc) :
  doc_sentences doc = [] ->
  LinguisticMetrics._calculate_syntactic_complexity doc = Raise ZeroDivisionError.
Proof.
  intros Hs. unfold LinguisticMetrics._calculate_syntactic_complexity, sents.
  rewrite Hs. reflexivity.
Qed.

(** C8, what the code does. On the empty text, for which the parser returns
    the document without tokens and without sentences, the guard
    [if not doc.sents] of [_calculate_avg_sentence_length] does not fire (a
    generator is true), the division 0 / 0 raises, and the exception leaves
    [LinguisticMetrics.score] and [score_text]; the two token-based metrics,
    guarded on a list, do return 0.0. *)
Theorem score_text_empty_raises (env : Collaborators) (cfg : Config) (doc : Doc)
    (Hnlp : nlp env "" = Ok doc)
    (Htokens : doc_tokens doc = [])
    (Hsents : doc_sentences doc = []) :
  LinguisticMetrics._calculate_avg_sentence_length doc = Raise ZeroDivisionError /\
  LinguisticMetrics._calculate_syntactic_complexity doc = Raise ZeroDivisionError /\
  LinguisticMetrics._calculate_lexical_diversity doc = Ok 0.0 /\
  LinguisticMetrics._calculate_vocabulary_rarity doc = Ok 0.0 /\
  LinguisticMetrics.score env "" = Raise ZeroDivisionError /\
  score_text env cfg "" = Raise ZeroDivisionError.
Proof.
  assert (Hasl := avg_sentence_length_no_sentences doc Hsents).
  assert (Hlin : LinguisticMetrics.score env "" = Raise ZeroDivisionError).
  { unfold LinguisticMetrics.score. rewrite Hnlp. cbn [mbind result_bind].
    unfold LinguisticMetrics.raw_scores. by rewrite Hasl. }
  split; [exact Hasl |].
  split; [by apply syntactic_complexity_no_sentences |].
  split.
  { unfold LinguisticMetrics._calculate_lexical_diversity,
      LinguisticMetrics.content_words. by rewrite Htokens. }
  split.
  { unfold LinguisticMetrics._calculate_vocabulary_rarity,
      LinguisticMetrics.content_words. by rewrite Htokens. }
  split; [exact Hlin |].
  unfold score_text.
  destruct (readability_score_never_raises env "") as [rs ->].
  cbn [mbind result_bind]. by rewrite Hlin.
Qed.

(** The whitespace pipeline parses the empty text to the empty document. *)
Lemma score_text_empty_raises_witness :
  nlp demo_env "" = Ok {| doc_tokens := []; doc_sentences := [] |} /\
  score_text demo_env default_Config "" = Raise ZeroDivisionError.
Proof.
  assert (Hnlp : nlp demo_env "" = Ok {| doc_tokens := []; doc_sentences := [] |})
    by reflexivity.
  split; [exact Hnlp |].
  exact (proj2 (proj2 (proj2 (proj2 (proj2
           (score_text_empty_raises demo_env default_Config _
              Hnlp eq_refl eq_refl)))))).
Defined.

(** ** Batches *)

Lemma is_ok_returns {A : Type} (c : result A) :
  is_ok c = true -> exists a, c = Ok a.
Proof. destruct c as [a | e]; [by exists a | discriminate]. Qed.

Lemma batch_score_cons (env : Collaborators) (cfg : Config)
    (text : string) (texts : list string) :
  batch_score env cfg (text :: texts) =
    (bundle ← score_text env cfg text;
     bundles ← batch_score env cfg texts;
     Ok (bundle :: bundles)).
Proof. reflexivity. Qed.

(** An exception of [score_text] on one text of the batch leaves
    [batch_score]: no list is returned. *)
Lemma batch_score_propagates (env : Collaborators) (cfg : Config)
    (texts : list string) :
  (exists text e, text ∈ texts /\ score_text env cfg text = Raise e) ->
  exists e, batch_score env cfg texts = Raise e.
Proof.
  intros (text & e & Hin & He).
  induction texts as [| t ts IH]; [by apply elem_of_nil in Hin |].
  rewrite batch_score_cons.
  destruct (score_text env cfg t) as [b | e'] eqn:Et; [| by eexists].
  cbn [mbind result_bind].
  apply elem_of_cons in Hin as [-> | Hin]; [congruence |].
  destruct (IH Hin) as [e' ->]. by eexists.
Qed.

(** C6, as the code has it. When [score_text] returns on every text of the
    list, [batch_score] returns a list of the same length whose i-th element
    is what [score_text] returns on the i-th text. *)
Theorem batch_score_matches_score_text (env : Collaborators) (cfg : Config)
    (texts : list string)
    (Hok : forall text, text ∈ texts ->
             exists bundle, score_text env cfg text = Ok bundle) :
  batch_matches_single env cfg texts.
Proof.
  unfold batch_matches_single.
  induction texts as [| t ts IH].
  - exists []. split; [reflexivity | split; [reflexivity |]].
    intros i text Hi. by rewrite lookup_nil in Hi.
  - destruct (Hok t) as [b Hb]; [by left |].
    destruct IH as (results & Hr & Hlen & Hnth).
    { intros text Hin. apply Hok. by right. }
    exists (b :: results). split.
    { rewrite batch_score_cons, Hb. cbn [mbind result_bind]. by rewrite Hr. }
    split; [simpl; by rewrite Hlen |].
    intros [| i] text Hi; simpl in Hi.
    + injection Hi as <-. by exists b.
    + by apply Hnth.
Qed.

(** Three texts, the first one twice: each is scored, in order. *)
Lemma batch_score_matches_score_text_witness :
  let texts := ["The cat sat on the mat."; "It was a sunny day.";
                "The cat sat on the mat."] in
  (forall text, text ∈ texts ->
     exists bundle, score_text demo_env default_Config text = Ok bundle) /\
  batch_matches_single demo_env default_Config texts.
Proof.
  intros texts.
  assert (Hok : forall text, text ∈ texts ->
                  exists bundle, score_text demo_env default_Config text = Ok bundle).
  { intros text Hin. unfold texts in Hin.
    rewrite !elem_of_cons, elem_of_nil in Hin.
    apply is_ok_returns.
    destruct Hin as [-> | [-> | [-> | []]]]; vm_compute; reflexivity. }
  split; [exact Hok |].
  exact (batch_score_matches_score_text demo_env default_Config texts Hok).
Defined.

(** C6 fails as stated: the first of these two texts is scored by
    [score_text], the second is empty, and [batch_score] raises instead of
    returning a list of two bundles. *)
Lemma batch_score_aborts_on_failing_text :
  (exists bundle,
     score_text demo_env default_Config "The cat sat on the mat." = Ok bundle) /\
  batch_score demo_env default_Config ["The cat sat on the mat."; ""]
  = Raise ZeroDivisionError /\
  ~ batch_matches_single demo_env default_Config ["The cat sat on the mat."; ""].
Proof.
  assert (Hb : batch_score demo_env default_Config ["The cat sat on the mat."; ""]
               = Raise ZeroDivisionError) by (vm_compute; reflexivity).
  split; [apply is_ok_returns; vm_compute; reflexivity |].
  split; [exact Hb |].
  intros (results & Hr & _). rewrite Hb in Hr. discriminate Hr.
Qed.

(** * Further properties of the code *)

(** ** The classifier, whatever the thresholds *)

(** X1. [get_complexity_level] is monotone: a larger score never gets a lower
    label, whatever the three thresholds are (ordered or not). *)
Theorem get_complexity_level_monotone (cfg : Config) (s1 s2 : Q)
    (Hle : s1 <= s2) :
  (level_rank (get_complexity_level cfg s1)
   <= level_rank (get_complexity_level cfg s2))%nat.
Proof.
  destruct (get_complexity_level_cases cfg s1)
    as [[A1 ->] | [(A1 & A2 & ->) | [(A1 & A2 & A3 & ->) | (A1 & A2 & A3 & ->)]]];
  destruct (get_complexity_level_cases cfg s2)
    as [[B1 ->] | [(B1 & B2 & ->) | [(B1 & B2 & B3 & ->) | (B1 & B2 & B3 & ->)]]];
  try (vm_compute; lia); exfalso; lra.
Qed.

(** 0.3 is "medium" and 0.5 is "high" with the default thresholds. *)
Lemma get_complexity_level_monotone_witness :
  0.3 <= 0.5 /\
  (level_rank (get_complexity_level default_Config 0.3)
   <= level_rank (get_complexity_level default_Config 0.5))%nat.
Proof.
  assert (Hle : 0.3 <= 0.5) by discriminate.
  split; [exact Hle |].
  exact (get_complexity_level_monotone default_Config 0.3 0.5 Hle).
Defined.

(** X2. Which labels can be returned at all. "low" and "very_high" always
    can; "medium" can exactly when the low threshold is below the medium one,
    and "high" exactly when both the low and the medium thresholds are below
    the high one.  Thresholds out of order are accepted and silently remove
    labels. *)
Theorem get_complexity_level_reachable_labels (cfg : Config) :
  (exists s, get_complexity_level cfg s = "low") /\
  (exists s, get_complexity_level cfg s = "very_high") /\
  ((exists s, get_complexity_level cfg s = "medium") <->
     LOW_COMPLEXITY_THRESHOLD cfg < MEDIUM_COMPLEXITY_THRESHOLD cfg) /\
  ((exists s, get_complexity_level cfg s = "high") <->
     LOW_COMPLEXITY_THRESHOLD cfg < HIGH_COMPLEXITY_THRESHOLD cfg /\
     MEDIUM_COMPLEXITY_THRESHOLD cfg < HIGH_COMPLEXITY_THRESHOLD cfg).
Proof.
  pose (lo := LOW_COMPLEXITY_THRESHOLD cfg).
  pose (me := MEDIUM_COMPLEXITY_THRESHOLD cfg).
  pose (hi := HIGH_COMPLEXITY_THRESHOLD cfg).
  split; [| split; [| split]].
  - exists (lo - 1).
    destruct (get_complexity_level_cases cfg (lo - 1))
      as [[A1 ->] | [(A1 & A2 & _) | [(A1 & _) | (A1 & _)]]];
      [reflexivity | | |]; unfold lo in *; exfalso; lra.
  - exists (Qmax lo (Qmax me hi)).
    pose proof (Q.le_max_l lo (Qmax me hi)).
    pose proof (Q.le_max_r lo (Qmax me hi)).
    pose proof (Q.le_max_l me hi). pose proof (Q.le_max_r me hi).
    destruct (get_complexity_level_cases cfg (Qmax lo (Qmax me hi)))
      as [[A1 _] | [(A1 & A2 & _) | [(A1 & A2 & A3 & _) | (A1 & A2 & A3 & ->)]]];
      [| | | reflexivity]; unfold lo, me, hi in *; exfalso; lra.
  - split.
    + intros [s Hs].
      destruct (get_complexity_level_cases cfg s)
        as [[A1 E] | [(A1 & A2 & E) | [(A1 & A2 & A3 & E) | (A1 & A2 & A3 & E)]]];
        rewrite E in Hs; try discriminate Hs. unfold lo, me, hi in *. lra.
    + intros Hlt. exists lo.
      destruct (get_complexity_level_cases cfg lo)
        as [[A1 _] | [(A1 & A2 & ->) | [(A1 & A2 & _) | (A1 & A2 & _)]]];
        [| reflexivity | |]; unfold lo, me, hi in *; exfalso; lra.
  - split.
    + intros [s Hs].
      destruct (get_complexity_level_cases cfg s)
        as [[A1 E] | [(A1 & A2 & E) | [(A1 & A2 & A3 & E) | (A1 & A2 & A3 & E)]]];
        rewrite E in Hs; try discriminate Hs. unfold lo, me, hi in *. lra.
    + intros [H1 H2]. exists (Qmax lo me).
      pose proof (Q.le_max_l lo me). pose proof (Q.le_max_r lo me).
      assert (Qmax lo me < hi)
        by (destruct (Q.max_spec lo me) as [[_ ->] | [_ ->]]; assumption).
      destruct (get_complexity_level_cases cfg (Qmax lo me))
        as [[A1 _] | [(A1 & A2 & _) | [(A1 & A2 & A3 & ->) | (A1 & A2 & A3 & _)]]];
        [| | reflexivity |]; unfold lo, me, hi in *; exfalso; lra.
Qed.

(** ** The overall aggregator *)

Lemma _calculate_overall_score_value (cfg : Config)
    (r l t : gmap string Q) :
  ~ READABILITY_WEIGHT cfg + LINGUISTIC_WEIGHT cfg + TRANSLATION_WEIGHT cfg == 0 ->
  r ≠ ∅ -> l ≠ ∅ -> t ≠ ∅ ->
  exists x,
    _calculate_overall_score cfg r l t = Ok (Fin (Qmin 1 (Qmax x 0))) /\
    x == (py_sum (values r) / len (values r) * READABILITY_WEIGHT cfg
          + py_sum (values l) / len (values l) * LINGUISTIC_WEIGHT cfg
          + py_sum (values t) / len (values t) * TRANSLATION_WEIGHT cfg)
         / (READABILITY_WEIGHT cfg + LINGUISTIC_WEIGHT cfg + TRANSLATION_WEIGHT cfg).
Proof.
  intros Hw Hr Hl Ht. rewrite _calculate_overall_score_unfold.
  rewrite !np_mean_nonempty by (by apply values_nonempty).
  match goal with
  | |- context [np_average [Fin ?a; Fin ?b; Fin ?c] _] =>
      destruct (np_average_finite a b c _ _ _ Hw) as (x & -> & Hx)
  end.
  exists x. split; [reflexivity | exact Hx].
Qed.

Lemma np_sum_nan (a : list npfloat) : fold_left npfloat_add a NaN = NaN.
Proof. induction a as [| x a IH]; [reflexivity | exact IH]. Qed.

Lemma np_average_nan (a b c : npfloat) (w_a w_b w_c : Q) :
  a = NaN \/ b = NaN \/ c = NaN ->
  ~ w_a + w_b + w_c == 0 ->
  np_average [a; b; c] [w_a; w_b; w_c] = Ok NaN.
Proof.
  intros Hnan Hw. unfold np_average.
  change (negb (length [a; b; c] =? length [w_a; w_b; w_c])%nat) with false.
  cbv iota.
  destruct (Qeq_bool _ 0) eqn:E.
  { exfalso. apply Hw. apply Qeq_bool_iff in E.
    unfold py_sum in E. simpl in E. lra. }
  f_equal.
  destruct Hnan as [-> | [-> | ->]];
    repeat match goal with x : npfloat |- _ => destruct x end; reflexivity.
Qed.

(** X4. The final clamp does not cover an empty category: when one of the
    three dictionaries is empty (and the weights do not sum to zero) the
    mean of that category is a nan and the overall score is that nan, not a
    number of [0, 1]. *)
Theorem overall_score_empty_category_is_nan (cfg : Config)
    (readability_scores linguistic_scores translation_scores : gmap string Q)
    (Hw : ~ READABILITY_WEIGHT cfg + LINGUISTIC_WEIGHT cfg + TRANSLATION_WEIGHT cfg == 0)
    (Hempty : readability_scores = ∅ \/ linguistic_scores = ∅ \/
              translation_scores = ∅) :
  _calculate_overall_score cfg
    readability_scores linguistic_scores translation_scores = Ok NaN.
Proof.
  rewrite _calculate_overall_score_unfold.
  rewrite np_average_nan; [reflexivity | | exact Hw].
  destruct Hempty as [-> | [-> | ->]]; [left | right; left | right; right];
    reflexivity.
Qed.

(** No linguistic metric at all. *)
Lemma overall_score_empty_category_is_nan_witness :
  _calculate_overall_score default_Config
    {["flesch_kincaid" := 0.2]} ∅ {["semantic_complexity" := 0.9]} = Ok NaN.
Proof.
  apply overall_score_empty_category_is_nan.
  - discriminate.
  - right. left. reflexivity.
Defined.

(** ** Sums and means of bounded values *)

Lemma py_sum_fold_right (xs : list Q) : py_sum xs == fold_right Qplus 0 xs.
Proof. unfold py_sum. rewrite fold_left_Qplus. ring. Qed.

Lemma len_cons {A : Type} (x : A) (xs : list A) : len (x :: xs) == 1 + len xs.
Proof.
  unfold len. simpl length. rewrite Nat2Z.inj_succ, <- Z.add_1_l.
  by rewrite inject_Z_plus.
Qed.

Lemma py_sum_bounds (xs : list Q) (lo hi : Q) :
  (forall x, x ∈ xs -> lo <= x /\ x <= hi) ->
  lo * len xs <= py_sum xs /\ py_sum xs <= hi * len xs.
Proof.
  rewrite py_sum_fold_right.
  induction xs as [| x xs IH]; intros Hb.
  - change (len (@nil Q)) with 0. simpl. split; lra.
  - destruct (Hb x) as [Hlo Hhi]; [by left |].
    destruct IH as [IHlo IHhi]; [intros y Hy; apply Hb; by right |].
    rewrite len_cons. simpl. split; lra.
Qed.

Lemma mean_bounds (xs : list Q) (lo hi : Q) :
  xs ≠ [] ->
  (forall x, x ∈ xs -> lo <= x /\ x <= hi) ->
  lo <= py_sum xs / len xs /\ py_sum xs / len xs <= hi.
Proof.
  intros Hne Hb. destruct (py_sum_bounds xs lo hi Hb) as [Hlo Hhi].
  pose proof (len_pos xs Hne) as Hpos. split.
  - by apply Qle_shift_div_l.
  - by apply Qle_shift_div_r.
Qed.

Lemma elem_of_values_inv {V : Type} (d : gmap string V) (v : V) :
  v ∈ values d -> exists k, d !! k = Some v.
Proof.
  unfold values. intros H. apply list_elem_of_fmap in H as ([k v'] & -> & H).
  exists k. by apply elem_of_map_to_list.
Qed.

Lemma weighted_average_bounds (a b c w_a w_b w_c lo hi : Q) :
  0 <= w_a -> 0 <= w_b -> 0 <= w_c -> 0 < w_a + w_b + w_c ->
  lo <= a <= hi -> lo <= b <= hi -> lo <= c <= hi ->
  lo <= (a * w_a + b * w_b + c * w_c) / (w_a + w_b + w_c) /\
  (a * w_a + b * w_b + c * w_c) / (w_a + w_b + w_c) <= hi.
Proof.
  intros Ha Hb Hc Hw [A1 A2] [B1 B2] [C1 C2]. split.
  - apply Qle_shift_div_l; [exact Hw |]. nra.
  - apply Qle_shift_div_r; [exact Hw |]. nra.
Qed.

(** X5. With non-negative weights, not all zero, and every metric value of
    the three categories in [0, 1], the three category means lie in [0, 1]
    and the clamp of [_calculate_overall_score] changes nothing: the score
    is the weighted average of the three means. *)
Theorem overall_score_within_metric_bounds (cfg : Config)
    (readability_scores linguistic_scores translation_scores : gmap string Q)
    (Hwr : 0 <= READABILITY_WEIGHT cfg)
    (Hwl : 0 <= LINGUISTIC_WEIGHT cfg)
    (Hwt : 0 <= TRANSLATION_WEIGHT cfg)
    (Hw : 0 < READABILITY_WEIGHT cfg + LINGUISTIC_WEIGHT cfg + TRANSLATION_WEIGHT cfg)
    (Hr : readability_scores ≠ ∅)
    (Hl : linguistic_scores ≠ ∅)
    (Ht : translation_scores ≠ ∅)
    (Hbr : forall k v, readability_scores !! k = Some v -> 0 <= v /\ v <= 1)
    (Hbl : forall k v, linguistic_scores !! k = Some v -> 0 <= v /\ v <= 1)
    (Hbt : forall k v, translation_scores !! k = Some v -> 0 <= v /\ v <= 1) :
  exists r l t overall : Q,
    np_mean (values readability_scores) = Fin r /\ (0 <= r /\ r <= 1) /\
    np_mean (values linguistic_scores) = Fin l /\ (0 <= l /\ l <= 1) /\
    np_mean (values translation_scores) = Fin t /\ (0 <= t /\ t <= 1) /\
    _calculate_overall_score cfg
      readability_scores linguistic_scores translation_scores = Ok (Fin overall) /\
    overall == (r * READABILITY_WEIGHT cfg + l * LINGUISTIC_WEIGHT cfg
                + t * TRANSLATION_WEIGHT cfg)
               / (READABILITY_WEIGHT cfg + LINGUISTIC_WEIGHT cfg
                  + TRANSLATION_WEIGHT cfg) /\
    0 <= overall /\ overall <= 1.
Proof.
  assert (Hw0 : ~ READABILITY_WEIGHT cfg + LINGUISTIC_WEIGHT cfg
                 + TRANSLATION_WEIGHT cfg == 0) by lra.
  destruct (_calculate_overall_score_value cfg _ _ _ Hw0 Hr Hl Ht) as (x & -> & Hx).
  assert (Hmean : forall d : gmap string Q, d ≠ ∅ ->
            (forall k v, d !! k = Some v -> 0 <= v /\ v <= 1) ->
            0 <= py_sum (values d) / len (values d) <= 1).
  { intros d Hd Hb. apply mean_bounds; [by apply values_nonempty |].
    intros v Hv. destruct (elem_of_values_inv d v Hv) as [k Hk]. by apply (Hb k). }
  pose proof (Hmean _ Hr Hbr) as Mr.
  pose proof (Hmean _ Hl Hbl) as Ml.
  pose proof (Hmean _ Ht Hbt) as Mt.
  destruct (weighted_average_bounds _ _ _ _ _ _ 0 1 Hwr Hwl Hwt Hw Mr Ml Mt)
    as [X1 X2].
  rewrite <- Hx in X1, X2.
  do 4 eexists.
  split; [by apply np_mean_nonempty, values_nonempty | split; [exact Mr |]].
  split; [by apply np_mean_nonempty, values_nonempty | split; [exact Ml |]].
  split; [by apply np_mean_nonempty, values_nonempty | split; [exact Mt |]].
  split; [reflexivity |].
  assert (Hclip : Qmin 1 (Qmax x 0) == x).
  { rewrite Q.max_l by lra. apply Q.min_r. lra. }
  rewrite Hclip. split; [exact Hx | split; [exact X1 | exact X2]].
Qed.

(** Three small dictionaries with values between 0.2 and 0.9. *)
Lemma overall_score_within_metric_bounds_witness :
  exists overall : Q,
    _calculate_overall_score default_Config
      (<["smog" := 0.4]> {["flesch_kincaid" := 0.2]})
      {["lexical_diversity" := 0.5]}
      {["semantic_complexity" := 0.9]} = Ok (Fin overall) /\
    0 <= overall /\ overall <= 1.
Proof.
  assert (Hone : forall (key : string) (x : Q) k v,
            0 <= x -> x <= 1 ->
            ({[key := x]} : gmap string Q) !! k = Some v -> 0 <= v /\ v <= 1).
  { intros key x k v H1 H2 H. by apply lookup_singleton_Some in H as [_ <-]. }
  assert (Htwo : forall k v,
            (<["smog" := 0.4]> {["flesch_kincaid" := 0.2]} : gmap string Q) !! k
            = Some v -> 0 <= v /\ v <= 1).
  { intros k v H. apply lookup_insert_Some in H as [[_ <-] | [_ H]].
    - split; discriminate.
    - apply (Hone "flesch_kincaid" 0.2 k v); [discriminate | discriminate | exact H]. }
  destruct (overall_score_within_metric_bounds default_Config
              (<["smog" := 0.4]> {["flesch_kincaid" := 0.2]})
              {["lexical_diversity" := 0.5]}
              {["semantic_complexity" := 0.9]}
              ltac:(discriminate) ltac:(discriminate) ltac:(discriminate)
              ltac:(reflexivity)
              (insert_non_empty _ _ _)
              (map_non_empty_singleton _ _) (map_non_empty_singleton _ _)
              Htwo
              (λ k v, Hone "lexical_diversity" 0.5 k v
                        ltac:(discriminate) ltac:(discriminate))
              (λ k v, Hone "semantic_complexity" 0.9 k v
                        ltac:(discriminate) ltac:(discriminate)))
    as (r & l & t & overall & _ & _ & _ & _ & _ & _ & Ho & _ & H1 & H2).
  exists overall. split; [exact Ho | split; [exact H1 | exact H2]].
Defined.

(** ** The readability provider, on every text *)

Lemma readability_normalize_dom (scores : gmap string Q) :
  dom (ReadabilityMetrics.normalize scores) = dom scores.
Proof.
  apply set_eq. intros k.
  rewrite !elem_of_dom, normalize_lookup. apply fmap_is_Some.
Qed.

Lemma clamped_scores_inv (env : Collaborators) (text : string) :
  (exists e, ReadabilityMetrics.clamped_scores env text = Raise e) \/
  (exists fk cl gf sm fre,
     flesch_kincaid_grade env text = Ok fk /\
     coleman_liau_index env text = Ok cl /\
     gunning_fog env text = Ok gf /\
     smog_index env text = Ok sm /\
     flesch_reading_ease env text = Ok fre /\
     ReadabilityMetrics.clamped_scores env text =
       Ok (<["flesch_reading_ease" := py_max 0 (py_min 100 fre)]>
             (<["smog" := py_max 0 (py_min 20 sm)]>
                (<["gunning_fog" := py_max 0 (py_min 20 gf)]>
                   (<["coleman_liau" := py_max 0 (py_min 20 cl)]>
                      (<["flesch_kincaid" := py_max 0 (py_min 20 fk)]> ∅)))))).
Proof.
  unfold ReadabilityMetrics.clamped_scores.
  destruct (flesch_kincaid_grade env text) as [fk | e1]; [| left; by eexists].
  destruct (coleman_liau_index env text) as [cl | e2]; [| left; by eexists].
  destruct (gunning_fog env text) as [gf | e3]; [| left; by eexists].
  destruct (smog_index env text) as [sm | e4]; [| left; by eexists].
  destruct (flesch_reading_ease env text) as [fre | e5]; [| left; by eexists].
  right. by exists fk, cl, gf, sm, fre.
Qed.

Lemma default_scores_bounded (metric : string) (v : Q) :
  ReadabilityMetrics.default_scores !! metric = Some v -> 0 <= v /\ v <= 1.
Proof.
  unfold ReadabilityMetrics.default_scores. intros H.
  repeat (apply lookup_insert_Some in H as [[_ <-] | [_ H]];
          [split; discriminate |]).
  by rewrite lookup_empty in H.
Qed.

Lemma normalized_clamped_bounded (fk cl gf sm fre : Q) (metric : string) (v : Q) :
  ReadabilityMetrics.normalize
    (<["flesch_reading_ease" := py_max 0 (py_min 100 fre)]>
       (<["smog" := py_max 0 (py_min 20 sm)]>
          (<["gunning_fog" := py_max 0 (py_min 20 gf)]>
             (<["coleman_liau" := py_max 0 (py_min 20 cl)]>
                (<["flesch_kincaid" := py_max 0 (py_min 20 fk)]> ∅)))))
    !! metric = Some v ->
  0 <= v /\ v <= 1.
Proof.
  rewrite normalize_lookup. intros H.
  apply fmap_Some in H as (raw & H & ->).
  pose proof (py_clamp_bounds 0 100 fre ltac:(discriminate)) as [? ?].
  pose proof (py_clamp_bounds 0 20 sm ltac:(discriminate)) as [? ?].
  pose proof (py_clamp_bounds 0 20 gf ltac:(discriminate)) as [? ?].
  pose proof (py_clamp_bounds 0 20 cl ltac:(discriminate)) as [? ?].
  pose proof (py_clamp_bounds 0 20 fk ltac:(discriminate)) as [? ?].
  repeat (apply lookup_insert_Some in H as [[<- <-] | [_ H]];
          [simpl; q_literals; split; lra |]).
  by rewrite lookup_empty in H.
Qed.

Lemma clamped_normalized_dom (fk cl gf sm fre : Q) :
  dom (ReadabilityMetrics.normalize
         (<["flesch_reading_ease" := py_max 0 (py_min 100 fre)]>
            (<["smog" := py_max 0 (py_min 20 sm)]>
               (<["gunning_fog" := py_max 0 (py_min 20 gf)]>
                  (<["coleman_liau" := py_max 0 (py_min 20 cl)]>
                     (<["flesch_kincaid" := py_max 0 (py_min 20 fk)]> ∅))))))
  = readability_keys.
Proof.
  rewrite readability_normalize_dom. rewrite !dom_insert_L, dom_empty_L.
  unfold readability_keys. set_solver.
Qed.

Lemma default_scores_dom : dom ReadabilityMetrics.default_scores = readability_keys.
Proof.
  unfold ReadabilityMetrics.default_scores, readability_keys.
  rewrite !dom_insert_L, dom_empty_L. set_solver.
Qed.

Lemma readability_score_returns (env : Collaborators) (text : string) :
  exists scores : gmap string Q,
    ReadabilityMetrics.score env text = Ok scores /\
    dom scores = readability_keys /\
    forall metric v, scores !! metric = Some v -> 0 <= v /\ v <= 1.
Proof.
  unfold ReadabilityMetrics.score.
  destruct (clamped_scores_inv env text)
    as [[e ->] | (fk & cl & gf & sm & fre & _ & _ & _ & _ & _ & ->)].
  - exists ReadabilityMetrics.default_scores.
    split; [reflexivity |]. split; [apply default_scores_dom | apply default_scores_bounded].
  - eexists. split; [reflexivity |].
    split; [apply clamped_normalized_dom | apply normalized_clamped_bounded].
Qed.

Lemma clamped_scores_raise_inv (env : Collaborators) (text : string) (e : exn) :
  ReadabilityMetrics.clamped_scores env text = Raise e ->
  (exists e, flesch_kincaid_grade env text = Raise e) \/
  (exists e, coleman_liau_index env text = Raise e) \/
  (exists e, gunning_fog env text = Raise e) \/
  (exists e, smog_index env text = Raise e) \/
  (exists e, flesch_reading_ease env text = Raise e).
Proof.
  unfold ReadabilityMetrics.clamped_scores.
  destruct (flesch_kincaid_grade env text) as [fk | e1]; [| left; by eexists].
  right.
  destruct (coleman_liau_index env text) as [cl | e2]; [| left; by eexists].
  right.
  destruct (gunning_fog env text) as [gf | e3]; [| left; by eexists].
  right.
  destruct (smog_index env text) as [sm | e4]; [| left; by eexists].
  right.
  destruct (flesch_reading_ease env text) as [fre | e5]; [| by eexists].
  discriminate.
Qed.

(** X6. Whatever the readability formulas do on a text, return or raise,
    [ReadabilityMetrics.score] returns a dictionary with exactly the five
    readability keys and every value in [0, 1]; and its [flesch_reading_ease]
    entry is 0 exactly when one of the five formulas raised, so that a
    failure of the provider can be told from a very readable text. *)
Theorem readability_score_total_and_bounded (env : Collaborators) (text : string) :
  exists (scores : gmap string Q) (ease : Q),
    ReadabilityMetrics.score env text = Ok scores /\
    dom scores = readability_keys /\
    (forall metric v, scores !! metric = Some v -> 0 <= v /\ v <= 1) /\
    scores !! "flesch_reading_ease" = Some ease /\
    (ease == 0 <->
     (exists e, flesch_kincaid_grade env text = Raise e) \/
     (exists e, coleman_liau_index env text = Raise e) \/
     (exists e, gunning_fog env text = Raise e) \/
     (exists e, smog_index env text = Raise e) \/
     (exists e, flesch_reading_ease env text = Raise e)).
Proof.
  unfold ReadabilityMetrics.score.
  destruct (clamped_scores_inv env text)
    as [[e He] | (fk & cl & gf & sm & fre & F1 & F2 & F3 & F4 & F5 & He)];
    rewrite He.
  - exists ReadabilityMetrics.default_scores, 0.0.
    split; [reflexivity |]. split; [apply default_scores_dom |].
    split; [apply default_scores_bounded |].
    split; [reflexivity |].
    split; [intros _; by apply (clamped_scores_raise_inv env text e) | reflexivity].
  - eexists _, (1.0 - py_max 0 (py_min 100 fre) / 120.0).
    split; [reflexivity |].
    split; [apply clamped_normalized_dom |].
    split; [apply normalized_clamped_bounded |].
    split; [by rewrite normalize_lookup |].
    destruct (py_clamp_bounds 0 100 fre ltac:(discriminate)) as [H0 H1].
    split.
    + intros Hz. exfalso. revert Hz. q_literals. lra.
    + rewrite F1, F2, F3, F4, F5.
      intros [[e' H] | [[e' H] | [[e' H] | [[e' H] | [e' H]]]]]; discriminate H.
Qed.

(** ** The linguistic provider *)

Lemma size_list_to_set_le (l : list string) :
  (size (list_to_set l : gset string) <= length l)%nat.
Proof.
  induction l as [| x l IH].
  - rewrite list_to_set_nil, size_empty. simpl. lia.
  - rewrite list_to_set_cons, size_union_alt, size_singleton. simpl length.
    assert (Hsub : (list_to_set l : gset string) ∖ {[x]} ⊆ list_to_set l)
      by (apply subseteq_difference_l; reflexivity).
    pose proof (subseteq_size _ _ Hsub). lia.
Qed.

Lemma size_list_to_set_pos (l : list string) :
  l ≠ [] -> (0 < size (list_to_set l : gset string))%nat.
Proof.
  destruct l as [| x l]; [congruence |]. intros _.
  rewrite list_to_set_cons, size_union_alt, size_singleton. lia.
Qed.

Lemma filter_all {A : Type} (P : A -> Prop) `{!∀ x, Decision (P x)} (l : list A) :
  (forall x, x ∈ l -> P x) -> filter P l = l.
Proof.
  induction l as [| x l IH]; intros Hall; [reflexivity |].
  rewrite filter_cons_True by (apply Hall; by left).
  f_equal. apply IH. intros y Hy. apply Hall. by right.
Qed.

Lemma filter_none {A : Type} (P : A -> Prop) `{!∀ x, Decision (P x)} (l : list A) :
  (forall x, x ∈ l -> ~ P x) -> filter P l = [].
Proof.
  induction l as [| x l IH]; intros Hnone; [reflexivity |].
  rewrite filter_cons_False by (apply Hnone; by left).
  apply IH. intros y Hy. apply Hnone. by right.
Qed.

(** X7. The type-token ratio is defined for every document: 0.0 when the
    document has no word, otherwise a number in (0, 1], which is 1 when no
    word occurs twice (case being ignored). *)
Theorem lexical_diversity_in_unit_interval (doc : Doc) :
  exists v,
    LinguisticMetrics._calculate_lexical_diversity doc = Ok v /\
    0 <= v /\ v <= 1 /\
    (LinguisticMetrics.content_words doc = [] -> v == 0) /\
    (LinguisticMetrics.content_words doc ≠ [] -> 0 < v) /\
    (LinguisticMetrics.content_words doc ≠ [] ->
     NoDup (LinguisticMetrics.content_words doc) -> v == 1).
Proof.
  unfold LinguisticMetrics._calculate_lexical_diversity.
  destruct (LinguisticMetrics.content_words doc) as [| w ws] eqn:Ew.
  - exists 0.0. split; [reflexivity |].
    repeat split; try discriminate; try reflexivity; congruence.
  - set (tokens := w :: ws).
    assert (Hpos : 0 < len tokens) by (by apply len_pos).
    rewrite py_truediv_ok by lra.
    eexists. split; [reflexivity |].
    pose proof (size_list_to_set_le tokens) as Hle.
    pose proof (size_list_to_set_pos tokens ltac:(done)) as Hgt.
    assert (H0 : 0 < inject_Z (Z.of_nat (size (list_to_set tokens : gset string)))).
    { change 0 with (inject_Z 0). rewrite <- Zlt_Qlt. lia. }
    assert (H1 : inject_Z (Z.of_nat (size (list_to_set tokens : gset string)))
                 <= len tokens).
    { unfold len. rewrite <- Zle_Qle. lia. }
    destruct (ratio_in_unit_interval _ _ (Qlt_le_weak _ _ H0) H1 Hpos) as [R0 R1].
    split; [exact R0 | split; [exact R1 |]].
    split; [discriminate |]. split.
    + intros _. apply Qlt_shift_div_l; [exact Hpos | lra].
    + intros _ Hnd. rewrite (size_list_to_set tokens Hnd).
      fold (len tokens). field. lra.
Qed.

(** X8. The rarity ratio is defined for every document and lies in [0, 1]:
    it is 0 when every word is in the list of common words (and when there
    is no word), and 1 when there are words and none is in the list. *)
Theorem vocabulary_rarity_in_unit_interval (doc : Doc) :
  exists v,
    LinguisticMetrics._calculate_vocabulary_rarity doc = Ok v /\
    0 <= v /\ v <= 1 /\
    ((forall w, w ∈ LinguisticMetrics.content_words doc ->
                w ∈ LinguisticMetrics.common_words) -> v == 0) /\
    (LinguisticMetrics.content_words doc ≠ [] ->
     (forall w, w ∈ LinguisticMetrics.content_words doc ->
                w ∉ LinguisticMetrics.common_words) -> v == 1).
Proof.
  unfold LinguisticMetrics._calculate_vocabulary_rarity.
  destruct (LinguisticMetrics.content_words doc) as [| w ws] eqn:Ew.
  - exists 0.0. split; [reflexivity |].
    repeat split; try discriminate; try reflexivity; congruence.
  - set (words := w :: ws).
    assert (Hpos : 0 < len words) by (by apply len_pos).
    rewrite py_truediv_ok by lra.
    eexists. split; [reflexivity |].
    destruct (ratio_in_unit_interval
                (len (filter (λ w, w ∉ LinguisticMetrics.common_words) words))
                (len words) (len_nonneg _) (len_filter_le _ _) Hpos) as [R0 R1].
    split; [exact R0 | split; [exact R1 |]]. split.
    + intros Hall.
      assert (Hnil : filter (λ w, w ∉ LinguisticMetrics.common_words) words = []).
      { apply filter_none. intros x Hx Hn. exact (Hn (Hall x Hx)). }
      rewrite Hnil. change (len (@nil string)) with 0. field. lra.
    + intros _ Hnone.
      assert (Hall : filter (λ w, w ∉ LinguisticMetrics.common_words) words = words).
      { apply filter_all. exact Hnone. }
      rewrite Hall. field. lra.
Qed.

Lemma len_app {A : Type} (xs ys : list A) : len (xs ++ ys) == len xs + len ys.
Proof.
  unfold len. by rewrite length_app, Nat2Z.inj_add, inject_Z_plus.
Qed.

Lemma py_sum_cons (x : Q) (xs : list Q) : py_sum (x :: xs) == x + py_sum xs.
Proof. rewrite !py_sum_fold_right. reflexivity. Qed.

Lemma py_sum_lengths (sentences : list Span) :
  py_sum (map (λ sent : Span, len sent) sentences) == len (concat sentences).
Proof.
  induction sentences as [| s ss IH].
  - reflexivity.
  - cbn [map concat]. rewrite py_sum_cons, len_app, IH. reflexivity.
Qed.

Lemma avg_sentence_length_returns (doc : Doc) :
  doc_sentences doc ≠ [] ->
  exists v, LinguisticMetrics._calculate_avg_sentence_length doc = Ok v /\
            v == len (concat (doc_sentences doc)) / len (doc_sentences doc) /\
            0 <= v.
Proof.
  intros Hne. unfold LinguisticMetrics._calculate_avg_sentence_length.
  cbn [py_bool_generator negb sents py_list_generator].
  pose proof (len_pos _ Hne) as Hpos.
  rewrite py_truediv_ok by lra.
  eexists. split; [reflexivity |].
  rewrite py_sum_lengths. split; [reflexivity |].
  apply Qle_shift_div_l; [exact Hpos |]. rewrite Qmult_0_l. apply len_nonneg.
Qed.


Lemma fold_left_max_le (sent : Span) (a D : nat) :
  (a <= D)%nat ->
  (forall token, token ∈ sent -> (LinguisticMetrics.head_depth token <= D)%nat) ->
  (fold_left (λ max_depth token,
               Nat.max max_depth (LinguisticMetrics.head_depth token)) sent a
   <= D)%nat.
Proof.
  revert a. induction sent as [| t ts IH]; intros a Ha Hall; [exact Ha |].
  simpl. apply IH.
  - pose proof (Hall t ltac:(by left)). lia.
  - intros token Hin. apply Hall. by right.
Qed.

Lemma syntactic_complexity_returns (doc : Doc) (D : nat) :
  doc_sentences doc ≠ [] ->
  (forall sent token, sent ∈ doc_sentences doc -> token ∈ sent ->
     (LinguisticMetrics.head_depth token <= D)%nat) ->
  exists v, LinguisticMetrics._calculate_syntactic_complexity doc = Ok v /\
            0 <= v /\ v <= inject_Z (Z.of_nat D).
Proof.
  intros Hne Hall. unfold LinguisticMetrics._calculate_syntactic_complexity.
  cbn [py_bool_generator negb sents py_list_generator].
  set (depths := map _ (doc_sentences doc)).
  assert (Hd : depths ≠ []).
  { unfold depths. destruct (doc_sentences doc); [congruence | discriminate]. }
  pose proof (len_pos _ Hd) as Hpos.
  rewrite py_truediv_ok by lra.
  eexists. split; [reflexivity |].
  apply mean_bounds; [exact Hd |].
  intros x Hx. unfold depths in Hx.
  apply list_elem_of_fmap in Hx as (sent & -> & Hsent). split.
  - change 0 with (inject_Z 0). rewrite <- Zle_Qle. lia.
  - rewrite <- Zle_Qle. apply inj_le.
    apply fold_left_max_le; [lia |]. intros token Ht. by apply (Hall sent).
Qed.

Lemma syntactic_complexity_depth_bound (doc : Doc) :
  exists D : nat,
    forall sent token, sent ∈ doc_sentences doc -> token ∈ sent ->
      (LinguisticMetrics.head_depth token <= D)%nat.
Proof.
  induction (doc_sentences doc) as [| s ss [D IH]].
  - exists 0%nat. intros sent token Hs. by apply elem_of_nil in Hs.
  - assert (Hs : exists Ds, forall token, token ∈ s ->
              (LinguisticMetrics.head_depth token <= Ds)%nat).
    { clear. induction s as [| t ts [Ds IHs]].
      - exists 0%nat. intros token Ht. by apply elem_of_nil in Ht.
      - exists (Nat.max (LinguisticMetrics.head_depth t) Ds).
        intros token Ht. apply elem_of_cons in Ht as [-> | Ht]; [lia |].
        pose proof (IHs token Ht). lia. }
    destruct Hs as [Ds Hs]. exists (Nat.max Ds D).
    intros sent token Hsent Ht. apply elem_of_cons in Hsent as [-> | Hsent].
    + pose proof (Hs token Ht). lia.
    + pose proof (IH sent token Hsent Ht). lia.
Qed.

(** X10. [_calculate_syntactic_complexity] raises [ZeroDivisionError]
    exactly on a document without sentences; on any other document it
    returns a number between 0 and any bound on the number of head links
    from a token to the root of its sentence, so that it is 0 when every
    token is a root. *)
Theorem syntactic_complexity_spec (doc : Doc) :
  (doc_sentences doc = [] /\
   LinguisticMetrics._calculate_syntactic_complexity doc = Raise ZeroDivisionError) \/
  (doc_sentences doc ≠ [] /\
   exists v,
     LinguisticMetrics._calculate_syntactic_complexity doc = Ok v /\
     0 <= v /\
     forall D : nat,
       (forall sent token, sent ∈ doc_sentences doc -> token ∈ sent ->
          (LinguisticMetrics.head_depth token <= D)%nat) ->
       v <= inject_Z (Z.of_nat D)).
Proof.
  destruct (doc_sentences doc) as [| s ss] eqn:Es.
  - left. split; [reflexivity |]. by apply syntactic_complexity_no_sentences.
  - right. split; [discriminate |].
    assert (Hne : doc_sentences doc ≠ []) by (rewrite Es; discriminate).
    destruct (syntactic_complexity_depth_bound doc) as [D0 HD0].
    destruct (syntactic_complexity_returns doc D0 Hne HD0) as (v & Hv & H0 & _).
    exists v. split; [exact Hv | split; [exact H0 |]].
    intros D HD. rewrite <- Es in HD.
    destruct (syntactic_complexity_returns doc D Hne HD) as (v' & Hv' & _ & H1).
    rewrite Hv in Hv'. by injection Hv' as <-.
Qed.

Lemma lexical_diversity_bounds (doc : Doc) :
  exists v, LinguisticMetrics._calculate_lexical_diversity doc = Ok v /\
            0 <= v /\ v <= 1.
Proof.
  unfold LinguisticMetrics._calculate_lexical_diversity.
  destruct (LinguisticMetrics.content_words doc) as [| w ws].
  - exists 0.0. split; [reflexivity | split; discriminate].
  - set (tokens := w :: ws).
    assert (Hpos : 0 < len tokens) by (by apply len_pos).
    rewrite py_truediv_ok by lra.
    eexists. split; [reflexivity |].
    apply ratio_in_unit_interval; [| | exact Hpos].
    + change 0 with (inject_Z 0). rewrite <- Zle_Qle. lia.
    + unfold len. rewrite <- Zle_Qle. pose proof (size_list_to_set_le tokens). lia.
Qed.

Lemma vocabulary_rarity_bounds (doc : Doc) :
  exists v, LinguisticMetrics._calculate_vocabulary_rarity doc = Ok v /\
            0 <= v /\ v <= 1.
Proof.
  unfold LinguisticMetrics._calculate_vocabulary_rarity.
  destruct (LinguisticMetrics.content_words doc) as [| w ws].
  - exists 0.0. split; [reflexivity | split; discriminate].
  - set (words := w :: ws).
    assert (Hpos : 0 < len words) by (by apply len_pos).
    rewrite py_truediv_ok by lra.
    eexists. split; [reflexivity |].
    apply ratio_in_unit_interval;
      [apply len_nonneg | apply len_filter_le | exact Hpos].
Qed.

Lemma linguistic_raw_scores_returns (doc : Doc) :
  doc_sentences doc ≠ [] ->
  exists asl ld sc vr,
    LinguisticMetrics.raw_scores doc =
      Ok (<["vocabulary_rarity" := vr]>
            (<["syntactic_complexity" := sc]>
               (<["lexical_diversity" := ld]>
                  (<["avg_sentence_length" := asl]> ∅)))) /\
    0 <= asl /\ (0 <= ld /\ ld <= 1) /\ 0 <= sc /\ (0 <= vr /\ vr <= 1).
Proof.
  intros Hne.
  destruct (avg_sentence_length_returns doc Hne) as (asl & Hasl & _ & A0).
  destruct (lexical_diversity_bounds doc) as (ld & Hld & L0 & L1).
  destruct (syntactic_complexity_depth_bound doc) as [D HD].
  destruct (syntactic_complexity_returns doc D Hne HD) as (sc & Hsc & S0 & _).
  destruct (vocabulary_rarity_bounds doc) as (vr & Hvr & V0 & V1).
  exists asl, ld, sc, vr.
  unfold LinguisticMetrics.raw_scores. rewrite Hasl, Hld, Hsc, Hvr.
  split; [reflexivity | tauto].
Qed.

Lemma linguistic_raw_scores_no_sentences (doc : Doc) :
  doc_sentences doc = [] ->
  LinguisticMetrics.raw_scores doc = Raise ZeroDivisionError.
Proof.
  intros Hs. unfold LinguisticMetrics.raw_scores.
  by rewrite (avg_sentence_length_no_sentences doc Hs).
Qed.

(** X11. [LinguisticMetrics.score] returns a dictionary exactly when the
    parser returns a document with at least one sentence; an exception of
    the parser is passed on unchanged, and a document without sentences
    gives [ZeroDivisionError]. *)
Theorem linguistic_score_returns_iff (env : Collaborators) (text : string) :
  ((exists scores, LinguisticMetrics.score env text = Ok scores) <->
   (exists doc, nlp env text = Ok doc /\ doc_sentences doc ≠ [])) /\
  (forall e, nlp env text = Raise e -> LinguisticMetrics.score env text = Raise e) /\
  (forall doc, nlp env text = Ok doc -> doc_sentences doc = [] ->
     LinguisticMetrics.score env text = Raise ZeroDivisionError).
Proof.
  unfold LinguisticMetrics.score.
  destruct (nlp env text) as [doc | e] eqn:Enlp; cbn [mbind result_bind].
  - destruct (doc_sentences doc) as [| s ss] eqn:Es.
    + rewrite (linguistic_raw_scores_no_sentences doc Es). cbn [mbind result_bind].
      split; [| split; [discriminate | reflexivity]].
      split; [intros [scores H]; discriminate H |].
      intros (doc' & [= <-] & Hne). congruence.
    + assert (Hne : doc_sentences doc ≠ []) by (rewrite Es; discriminate).
      destruct (linguistic_raw_scores_returns doc Hne)
        as (asl & ld & sc & vr & -> & _).
      cbn [mbind result_bind].
      rewrite (linguistic_normalize_lookups _ asl ld sc vr) by reflexivity.
      split; [| split; [discriminate |]].
      * split; [intros _; by exists doc | intros _; by eexists].
      * intros doc' [= <-] Hnil. congruence.
  - split; [| split; [by intros e' [= <-] | discriminate]].
    split; [intros [scores H]; discriminate H |].
    intros (doc & H & _). discriminate H.
Qed.

(** X12. When the parser returns a document with at least one sentence,
    [LinguisticMetrics.score] returns a dictionary with exactly the four
    linguistic keys, all values in [0, 1]; the lexical diversity is at most
    0.6 and the vocabulary rarity at most 0.5. *)
Theorem linguistic_score_bounded (env : Collaborators) (text : string) (doc : Doc)
    (Hnlp : nlp env text = Ok doc)
    (Hne : doc_sentences doc ≠ []) :
  exists scores : gmap string Q,
    LinguisticMetrics.score env text = Ok scores /\
    dom scores = linguistic_keys /\
    (forall metric v, scores !! metric = Some v -> 0 <= v /\ v <= 1) /\
    (forall v, scores !! "lexical_diversity" = Some v -> v <= 0.6) /\
    (forall v, scores !! "vocabulary_rarity" = Some v -> v <= 0.5).
Proof.
  unfold LinguisticMetrics.score. rewrite Hnlp. cbn [mbind result_bind].
  destruct (linguistic_raw_scores_returns doc Hne)
    as (asl & ld & sc & vr & -> & A0 & [L0 L1] & S0 & [V0 V1]).
  cbn [mbind result_bind].
  rewrite (linguistic_normalize_lookups _ asl ld sc vr) by reflexivity.
  eexists. split; [reflexivity |].
  assert (Hasl : 0 <= py_min (asl / 30.0) 1.0 /\ py_min (asl / 30.0) 1.0 <= 1).
  { split; [apply py_min_glb; [q_literals; lra | discriminate] |].
    eapply Qle_trans; [apply py_min_le_r | discriminate]. }
  assert (Hsc : 0 <= py_min (sc / 10.0) 1.0 /\ py_min (sc / 10.0) 1.0 <= 1).
  { split; [apply py_min_glb; [q_literals; lra | discriminate] |].
    eapply Qle_trans; [apply py_min_le_r | discriminate]. }
  split; [rewrite !dom_insert_L, dom_empty_L; unfold linguistic_keys; set_solver |].
  split; [| split].
  - intros metric v H.
    repeat (apply lookup_insert_Some in H as [[_ <-] | [_ H]];
            [first [exact Hasl | exact Hsc | split; lra] |]).
    by rewrite lookup_empty in H.
  - intros v H. rewrite lookup_insert_ne in H by done.
    rewrite lookup_insert_ne in H by done.
    rewrite lookup_insert_eq in H. injection H as <-. lra.
  - intros v H. rewrite lookup_insert_eq in H. injection H as <-. lra.
Qed.

(** A six-word sentence parsed by the whitespace pipeline. *)
Lemma linguistic_score_bounded_witness :
  exists doc,
    nlp demo_env "The cat sat on the mat." = Ok doc /\
    doc_sentences doc ≠ [] /\
    exists scores : gmap string Q,
      LinguisticMetrics.score demo_env "The cat sat on the mat." = Ok scores /\
      dom scores = linguistic_keys.
Proof.
  destruct (nlp demo_env "The cat sat on the mat.") as [doc | e] eqn:Enlp;
    [| discriminate Enlp].
  assert (Hne : doc_sentences doc ≠ []).
  { injection Enlp as <-. discriminate. }
  exists doc. split; [reflexivity | split; [exact Hne |]].
  destruct (linguistic_score_bounded demo_env "The cat sat on the mat." doc Enlp Hne)
    as (scores & Hs & Hd & _).
  exists scores. split; [exact Hs | exact Hd].
Defined.

(** ** The translation provider *)

(** X13. [_calculate_semantic_complexity] passes an exception of the
    embedding computation on; otherwise it returns a tenth of the embedding
    norm up to a norm of 10 and 1.0 beyond, so a value of at most 1, and a
    non-negative one for a non-negative norm. *)
Theorem semantic_complexity_spec (env : Collaborators) (text : string) :
  (forall e, embedding_norm env text = Raise e ->
     TranslationMetrics._calculate_semantic_complexity env text = Raise e) /\
  (forall complexity, embedding_norm env text = Ok complexity ->
     exists v,
       TranslationMetrics._calculate_semantic_complexity env text = Ok v /\
       v <= 1 /\
       (0 <= complexity -> 0 <= v) /\
       (complexity <= 10 -> v == complexity / 10) /\
       (10 <= complexity -> v == 1)).
Proof.
  unfold TranslationMetrics._calculate_semantic_complexity. split.
  - intros e ->. reflexivity.
  - intros c ->. eexists. split; [reflexivity |].
    cbv beta. unfold py_min.
    case_Qltb 1.0 (c / 10.0); q_literals; repeat split; intros; lra.
Qed.

Lemma count_idioms_short (words : list string) :
  (length words <= 2)%nat -> TranslationMetrics.count_idioms words = 0%nat.
Proof.
  intros H. unfold TranslationMetrics.count_idioms.
  replace (length words - 2)%nat with 0%nat by lia. reflexivity.
Qed.

Lemma count_idioms_le (words : list string) :
  (TranslationMetrics.count_idioms words <= length words - 2)%nat.
Proof.
  unfold TranslationMetrics.count_idioms.
  etransitivity; [apply length_filter |]. by rewrite length_seq.
Qed.

Lemma idiomatic_density_value (text : string) :
  split (lower text) ≠ [] ->
  TranslationMetrics._calculate_idiomatic_density text =
    Ok (py_min
          (inject_Z (Z.of_nat (TranslationMetrics.count_idioms (split (lower text))))
           / (len (split (lower text)) / 3))
          1.0).
Proof.
  intros Hne. unfold TranslationMetrics._calculate_idiomatic_density.
  destruct (split (lower text)) as [| w ws] eqn:Ew; [congruence |].
  set (words := w :: ws).
  assert (Hpos : 0 < len words) by (by apply len_pos).
  rewrite (py_truediv_ok (len words) 3) by discriminate.
  assert (Hthird : 0 < len words / 3)
    by (apply Qlt_shift_div_l; [reflexivity | lra]).
  cbn [mbind result_bind].
  rewrite py_truediv_ok by lra. reflexivity.
Qed.

(** X14. A text of fewer than three words has idiomatic density 0: there is
    no three-word phrase to look up. *)
Theorem idiomatic_density_short_text (text : string)
    (Hshort : (length (split (lower text)) <= 2)%nat) :
  exists v, TranslationMetrics._calculate_idiomatic_density text = Ok v /\ v == 0.
Proof.
  destruct (split (lower text)) as [| w ws] eqn:Ew.
  - exists 0.0. split; [| reflexivity].
    unfold TranslationMetrics._calculate_idiomatic_density. by rewrite Ew.
  - rewrite idiomatic_density_value by (rewrite Ew; discriminate).
    rewrite Ew. rewrite (count_idioms_short (w :: ws) Hshort).
    eexists. split; [reflexivity |].
    unfold py_min. case_Qltb 1.0 (inject_Z (Z.of_nat 0) / (len (w :: ws) / 3)).
    + exfalso. revert E. unfold Qdiv. rewrite Qmult_0_l. discriminate.
    + unfold Qdiv. apply Qmult_0_l.
Qed.

(** Two words that open an idiom. *)
Lemma idiomatic_density_short_text_witness :
  (length (split (lower "Kick the")) <= 2)%nat /\
  exists v, TranslationMetrics._calculate_idiomatic_density "Kick the" = Ok v /\
            v == 0.
Proof.
  assert (Hshort : (length (split (lower "Kick the")) <= 2)%nat)
    by (vm_compute; lia).
  split; [exact Hshort |].
  exact (idiomatic_density_short_text "Kick the" Hshort).
Defined.

(** X15. [TranslationMetrics.score] returns exactly when the embedding
    computation does, and passes its exception on; the dictionary it returns
    has exactly the three translation keys, the idiomatic density and the
    domain specificity in [0, 1] and the semantic complexity at most 1. *)
Theorem translation_score_spec (env : Collaborators) (text : string) :
  (forall e, embedding_norm env text = Raise e ->
     TranslationMetrics.score env text = Raise e) /\
  (forall complexity, embedding_norm env text = Ok complexity ->
     exists (scores : gmap string Q) (idiomatic domain : Q),
       TranslationMetrics.score env text = Ok scores /\
       dom scores = translation_keys /\
       scores !! "semantic_complexity" = Some (py_min (complexity / 10.0) 1.0) /\
       py_min (complexity / 10.0) 1.0 <= 1 /\
       scores !! "idiomatic_density" = Some idiomatic /\
       0 <= idiomatic /\ idiomatic <= 1 /\
       scores !! "domain_specificity" = Some domain /\
       0 <= domain /\ domain <= 1).
Proof.
  unfold TranslationMetrics.score,
    TranslationMetrics._calculate_semantic_complexity.
  split.
  - intros e ->. reflexivity.
  - intros c ->. cbn [mbind result_bind].
    destruct (idiomatic_density_in_unit_interval text) as (i & -> & I0 & I1).
    destruct (domain_specificity_in_unit_interval text) as (d & -> & D0 & D1).
    cbn [mbind result_bind].
    eexists _, i, d. split; [reflexivity |].
    split; [rewrite !dom_insert_L, dom_empty_L; unfold translation_keys; set_solver |].
    split; [by simplify_map_eq |].
    split; [eapply Qle_trans; [apply py_min_le_r | discriminate] |].
    split; [by simplify_map_eq |].
    split; [exact I0 | split; [exact I1 |]].
    split; [by simplify_map_eq |].
    split; [exact D0 | exact D1].
Qed.

(** ** Which idioms can be found *)

Lemma contains_whitespace_app (a b : string) :
  contains_whitespace (a ++ b) = contains_whitespace a || contains_whitespace b.
Proof.
  induction a as [| c a IH]; [reflexivity |].
  change (String c a ++ b) with (String c (a ++ b)).
  cbn [contains_whitespace]. rewrite IH. apply orb_assoc.
Qed.

Lemma split_from_no_whitespace (s cur w : string) :
  contains_whitespace cur = false ->
  w ∈ split_from cur s ->
  contains_whitespace w = false.
Proof.
  revert cur. induction s as [| c s IH]; intros cur Hcur Hin; cbn [split_from] in Hin.
  - destruct (decide (cur = "")); [by apply elem_of_nil in Hin |].
    by apply list_elem_of_singleton in Hin as ->.
  - destruct (is_whitespace c) eqn:Ec.
    + destruct (decide (cur = "")).
      * by apply (IH "").
      * apply elem_of_cons in Hin as [-> | Hin]; [exact Hcur | by apply (IH "")].
    + apply (IH (cur ++ String c "")); [| exact Hin].
      rewrite contains_whitespace_app, Hcur. cbn. by rewrite Ec.
Qed.

Lemma split_no_whitespace (s w : string) :
  w ∈ split s -> contains_whitespace w = false.
Proof. by apply split_from_no_whitespace. Qed.

Lemma word_before_blank_unique (a a' r r' : string) :
  contains_whitespace a = false ->
  contains_whitespace a' = false ->
  a ++ String " " r = a' ++ String " " r' ->
  a = a' /\ r = r'.
Proof.
  revert a'. induction a as [| x a IH]; intros [| y a'] Ha Ha' Heq.
  - by injection Heq as ->.
  - change (String " " r = String y (a' ++ String " " r')) in Heq.
    injection Heq as <- _. discriminate Ha'.
  - change (String x (a ++ String " " r) = String " " r') in Heq.
    injection Heq as -> _. discriminate Ha.
  - change (String x (a ++ String " " r) = String y (a' ++ String " " r')) in Heq.
    injection Heq as <- Heq.
    cbn [contains_whitespace] in Ha, Ha'.
    apply orb_false_iff in Ha as [_ Ha]. apply orb_false_iff in Ha' as [_ Ha'].
    destruct (IH a' Ha Ha' Heq) as [-> ->]. done.
Qed.

Lemma join_three_words (a b c : string) :
  join " " [a; b; c] = a ++ String " " (b ++ String " " c).
Proof. reflexivity. Qed.

Lemma three_words_unique (a b c a' b' c' : string) :
  contains_whitespace a = false -> contains_whitespace b = false ->
  contains_whitespace c = false ->
  contains_whitespace a' = false -> contains_whitespace b' = false ->
  join " " [a; b; c] = a' ++ String " " (b' ++ String " " c') ->
  a = a' /\ b = b' /\ c = c'.
Proof.
  intros Ha Hb Hc Ha' Hb' Heq. rewrite join_three_words in Heq.
  destruct (word_before_blank_unique _ _ _ _ Ha Ha' Heq) as [-> Heq'].
  destruct (word_before_blank_unique _ _ _ _ Hb Hb' Heq') as [-> ->]. done.
Qed.

Lemma three_word_phrase_idiom (a b c : string) :
  contains_whitespace a = false -> contains_whitespace b = false ->
  contains_whitespace c = false ->
  join " " [a; b; c] ∈ TranslationMetrics.common_idioms <->
  [a; b; c] = ["kick"; "the"; "bucket"] \/ [a; b; c] = ["piece"; "of"; "cake"].
Proof.
  intros Ha Hb Hc. unfold TranslationMetrics.common_idioms.
  rewrite elem_of_list_to_set, !elem_of_cons, elem_of_nil. split.
  - intros [H | [H | [H | [H | [H | []]]]]].
    + destruct (three_words_unique a b c "kick" "the" "bucket" Ha Hb Hc eq_refl eq_refl H)
        as (-> & -> & ->). by left.
    + destruct (three_words_unique a b c "raining" "cats" "and dogs"
                  Ha Hb Hc eq_refl eq_refl H) as (_ & _ & ->). discriminate Hc.
    + destruct (three_words_unique a b c "piece" "of" "cake" Ha Hb Hc eq_refl eq_refl H)
        as (-> & -> & ->). by right.
    + destruct (three_words_unique a b c "let" "the" "cat out of the bag"
                  Ha Hb Hc eq_refl eq_refl H) as (_ & _ & ->). discriminate Hc.
    + destruct (three_words_unique a b c "hit" "the" "nail on the head"
                  Ha Hb Hc eq_refl eq_refl H) as (_ & _ & ->). discriminate Hc.
  - intros [[= -> -> ->] | [= -> -> ->]]; [by left | right; right; by left].
Qed.

Lemma slice_three (words : list string) (i : nat) :
  (i < length words - 2)%nat ->
  exists a b c, slice words i (i + 3) = [a; b; c] /\
                a ∈ words /\ b ∈ words /\ c ∈ words.
Proof.
  intros Hi. unfold slice. replace (i + 3 - i)%nat with 3%nat by lia.
  assert (Hlen : (3 <= length (skipn i words))%nat) by (rewrite length_skipn; lia).
  assert (Hsub : forall w, w ∈ skipn i words -> w ∈ words).
  { intros w Hw. rewrite <- (firstn_skipn i words). apply elem_of_app. by right. }
  destruct (skipn i words) as [| a [| b [| c rest]]]; simpl in Hlen; try lia.
  exists a, b, c. split; [reflexivity |].
  repeat split; apply Hsub; set_solver.
Qed.

Lemma filter_ext_in {A : Type} (P R : A -> Prop)
    `{!∀ x, Decision (P x)} `{!∀ x, Decision (R x)} (l : list A) :
  (forall x, x ∈ l -> P x <-> R x) -> filter P l = filter R l.
Proof.
  induction l as [| x l IH]; intros Hext; [reflexivity |].
  assert (Hx : P x <-> R x) by (apply Hext; by left).
  assert (Hl : filter P l = filter R l)
    by (apply IH; intros y Hy; apply Hext; by right).
  destruct (decide (P x)) as [HP | HP].
  - rewrite !filter_cons_True by tauto. by rewrite Hl.
  - rewrite !filter_cons_False by tauto. exact Hl.
Qed.

(** X16. Of the five idioms of the table only the two three-word ones can
    ever be found: on the words of a text, [count_idioms] counts exactly the
    positions where the three words are "kick the bucket" or "piece of cake".
    "raining cats and dogs", "let the cat out of the bag" and "hit the nail
    on the head" are never counted. *)
Theorem count_idioms_only_three_word_idioms (text : string) :
  TranslationMetrics.count_idioms (split (lower text)) =
    length
      (filter (λ i, slice (split (lower text)) i (i + 3) = ["kick"; "the"; "bucket"] \/
                    slice (split (lower text)) i (i + 3) = ["piece"; "of"; "cake"])
              (seq 0 (length (split (lower text)) - 2))).
Proof.
  unfold TranslationMetrics.count_idioms. f_equal.
  apply filter_ext_in. intros i Hi.
  apply elem_of_seq in Hi as [_ Hi].
  destruct (slice_three (split (lower text)) i ltac:(lia))
    as (a & b & c & -> & Ha & Hb & Hc).
  apply three_word_phrase_idiom; by eapply split_no_whitespace.
Qed.

(** ** The whole pipeline on one text *)

Lemma linguistic_score_inv (env : Collaborators) (text : string)
    (scores : gmap string Q) :
  LinguisticMetrics.score env text = Ok scores ->
  dom scores = linguistic_keys /\
  forall metric v, scores !! metric = Some v -> 0 <= v /\ v <= 1.
Proof.
  unfold LinguisticMetrics.score.
  destruct (nlp env text) as [doc | e]; [| discriminate].
  cbn [mbind result_bind].
  destruct (doc_sentences doc) as [| s ss] eqn:Es.
  { rewrite (linguistic_raw_scores_no_sentences doc Es). discriminate. }
  assert (Hne : doc_sentences doc ≠ []) by (rewrite Es; discriminate).
  destruct (linguistic_raw_scores_returns doc Hne)
    as (asl & ld & sc & vr & -> & A0 & [L0 L1] & S0 & [V0 V1]).
  cbn [mbind result_bind].
  rewrite (linguistic_normalize_lookups _ asl ld sc vr) by reflexivity.
  intros [= <-].
  assert (Hasl : 0 <= py_min (asl / 30.0) 1.0 /\ py_min (asl / 30.0) 1.0 <= 1).
  { split; [apply py_min_glb; [q_literals; lra | discriminate] |].
    eapply Qle_trans; [apply py_min_le_r | discriminate]. }
  assert (Hsc : 0 <= py_min (sc / 10.0) 1.0 /\ py_min (sc / 10.0) 1.0 <= 1).
  { split; [apply py_min_glb; [q_literals; lra | discriminate] |].
    eapply Qle_trans; [apply py_min_le_r | discriminate]. }
  split; [rewrite !dom_insert_L, dom_empty_L; unfold linguistic_keys; set_solver |].
  intros metric v H.
  repeat (apply lookup_insert_Some in H as [[_ <-] | [_ H]];
          [first [exact Hasl | exact Hsc | split; lra] |]).
  by rewrite lookup_empty in H.
Qed.

Lemma translation_score_bounds (env : Collaborators) (text : string)
    (scores : gmap string Q) :
  TranslationMetrics.score env text = Ok scores ->
  exists complexity,
    embedding_norm env text = Ok complexity /\
    dom scores = translation_keys /\
    forall metric v, scores !! metric = Some v ->
      v <= 1 /\ (0 <= complexity -> 0 <= v).
Proof.
  intros Hs.
  destruct (translation_score_inv env text scores Hs)
    as (sc & i & d & Hsc & Hi & Hd & ->).
  unfold TranslationMetrics._calculate_semantic_complexity in Hsc.
  destruct (embedding_norm env text) as [c | e]; [| discriminate Hsc].
  injection Hsc as <-.
  destruct (idiomatic_density_in_unit_interval text) as (i' & Hi' & I0 & I1).
  destruct (domain_specificity_in_unit_interval text) as (d' & Hd' & D0 & D1).
  rewrite Hi in Hi'. injection Hi' as <-.
  rewrite Hd in Hd'. injection Hd' as <-.
  exists c. split; [reflexivity |].
  split; [rewrite !dom_insert_L, dom_empty_L; unfold translation_keys; set_solver |].
  intros metric v H.
  apply lookup_insert_Some in H as [[_ <-] | [_ H]]; [split; [exact D1 | done] |].
  apply lookup_insert_Some in H as [[_ <-] | [_ H]]; [split; [exact I1 | done] |].
  apply lookup_insert_Some in H as [[_ <-] | [_ H]];
    [| by rewrite lookup_empty in H].
  split; [eapply Qle_trans; [apply py_min_le_r | discriminate] |].
  intros Hc. apply py_min_glb; [q_literals; lra | discriminate].
Qed.

Lemma dom_nonempty (keys : gset string) (d : gmap string Q) :
  dom d = keys -> keys ≠ ∅ -> d ≠ ∅.
Proof. intros Hd Hk ->. apply Hk. by rewrite <- Hd, dom_empty_L. Qed.

Lemma provider_keys_nonempty :
  readability_keys ≠ ∅ /\ linguistic_keys ≠ ∅ /\ translation_keys ≠ ∅.
Proof.
  unfold readability_keys, linguistic_keys, translation_keys.
  split; [| split].
  - apply (non_empty_inhabited_L "flesch_kincaid"). set_solver.
  - apply (non_empty_inhabited_L "avg_sentence_length"). set_solver.
  - apply (non_empty_inhabited_L "semantic_complexity"). set_solver.
Qed.

Lemma _calculate_overall_score_zero_sum (cfg : Config)
    (r l t : gmap string Q) :
  READABILITY_WEIGHT cfg + LINGUISTIC_WEIGHT cfg + TRANSLATION_WEIGHT cfg == 0 ->
  _calculate_overall_score cfg r l t = Raise ZeroDivisionError.
Proof.
  intros Hw. rewrite _calculate_overall_score_unfold. unfold np_average.
  change (negb (length [np_mean (values r); np_mean (values l); np_mean (values t)]
                =? length [READABILITY_WEIGHT cfg; LINGUISTIC_WEIGHT cfg;
                           TRANSLATION_WEIGHT cfg])%nat) with false.
  cbv iota.
  assert (Hs : py_sum [READABILITY_WEIGHT cfg; LINGUISTIC_WEIGHT cfg;
                       TRANSLATION_WEIGHT cfg] == 0)
    by (unfold py_sum; simpl; lra).
  apply Qeq_bool_iff in Hs. by rewrite Hs.
Qed.

(** What [score_text] is made of, once the readability provider, which
    always returns, is out of the way. *)
Lemma score_text_unfold (env : Collaborators) (cfg : Config) (text : string) :
  exists rs : gmap string Q,
    ReadabilityMetrics.score env text = Ok rs /\
    dom rs = readability_keys /\
    (forall metric v, rs !! metric = Some v -> 0 <= v /\ v <= 1) /\
    score_text env cfg text =
      (ls ← LinguisticMetrics.score env text;
       ts ← TranslationMetrics.score env text;
       overall ← _calculate_overall_score cfg rs ls ts;
       Ok (<["overall_complexity" := overall]>
             (update (update (update ∅ (Fin <$> rs)) (Fin <$> ls)) (Fin <$> ts)))).
Proof.
  destruct (readability_score_returns env text) as (rs & Hrs & Hd & Hb).
  exists rs. split; [exact Hrs | split; [exact Hd | split; [exact Hb |]]].
  unfold score_text. by rewrite Hrs.
Qed.

(** X17. [score_text] returns a bundle exactly when the linguistic provider
    and the translation provider return and the three weights do not sum to
    zero: a failure of the readability formulas never makes it fail.  An
    exception of the linguistic provider is the one raised, before the
    translation provider is even asked. *)
Theorem score_text_returns_iff (env : Collaborators) (cfg : Config) (text : string) :
  ((exists bundle, score_text env cfg text = Ok bundle) <->
   (exists ls, LinguisticMetrics.score env text = Ok ls) /\
   (exists ts, TranslationMetrics.score env text = Ok ts) /\
   ~ READABILITY_WEIGHT cfg + LINGUISTIC_WEIGHT cfg + TRANSLATION_WEIGHT cfg == 0) /\
  (forall e, LinguisticMetrics.score env text = Raise e ->
     score_text env cfg text = Raise e) /\
  (forall ls e, LinguisticMetrics.score env text = Ok ls ->
     TranslationMetrics.score env text = Raise e ->
     score_text env cfg text = Raise e).
Proof.
  destruct (score_text_unfold env cfg text) as (rs & _ & Hdr & _ & ->).
  destruct provider_keys_nonempty as (Kr & Kl & Kt).
  destruct (LinguisticMetrics.score env text) as [ls | e1] eqn:El;
    cbn [mbind result_bind].
  2: { split; [| split; [by intros e [= <-] | discriminate]].
       split; [intros [b H]; discriminate H | intros ([ls H] & _); discriminate H]. }
  destruct (TranslationMetrics.score env text) as [ts | e2] eqn:Et;
    cbn [mbind result_bind].
  2: { split; [| split; [discriminate | by intros ls' e _ [= <-]]].
       split; [intros [b H]; discriminate H |
               intros (_ & [ts H] & _); discriminate H]. }
  split; [| split; discriminate].
  destruct (linguistic_score_inv env text ls El) as [Hdl _].
  destruct (translation_score_bounds env text ts Et) as (c & _ & Hdt & _).
  destruct (Qeq_dec (READABILITY_WEIGHT cfg + LINGUISTIC_WEIGHT cfg
                     + TRANSLATION_WEIGHT cfg) 0) as [Hz | Hnz].
  - rewrite (_calculate_overall_score_zero_sum cfg rs ls ts Hz).
    cbn [mbind result_bind].
    split; [intros [b H]; discriminate H | intros (_ & _ & Hw); contradiction].
  - destruct (_calculate_overall_score_value cfg rs ls ts Hnz
                (dom_nonempty _ _ Hdr Kr) (dom_nonempty _ _ Hdl Kl)
                (dom_nonempty _ _ Hdt Kt)) as (x & -> & _).
    cbn [mbind result_bind].
    split; [intros _ | intros _; by eexists].
    split; [by exists ls | split; [by exists ts | exact Hnz]].
Qed.

Lemma provider_keys_disjoint :
  readability_keys ## linguistic_keys /\
  readability_keys ## translation_keys /\
  linguistic_keys ## translation_keys /\
  "overall_complexity" ∉ readability_keys ∪ linguistic_keys ∪ translation_keys.
Proof. repeat split; apply (bool_decide_unpack _); by vm_compute. Qed.

Lemma lookup_outside_dom (d : gmap string Q) (keys : gset string) (k : string) :
  dom d = keys -> k ∉ keys -> (Fin <$> d) !! k = None.
Proof.
  intros Hd Hk. rewrite lookup_fmap.
  assert (d !! k = None) as -> by (apply not_elem_of_dom; by rewrite Hd).
  reflexivity.
Qed.

Lemma lookup_inside_dom (d : gmap string Q) (keys : gset string) (k : string) (v : Q) :
  dom d = keys -> d !! k = Some v -> k ∈ keys.
Proof. intros <- H. apply elem_of_dom. by exists v. Qed.

(** X18. A bundle returned by [score_text] holds, unchanged, every metric of
    the three providers (no key of one provider hides a key of another) and
    one more entry, [overall_complexity], a number of [0, 1]: thirteen
    entries in all. *)
Theorem score_text_bundle (env : Collaborators) (cfg : Config) (text : string)
    (bundle : gmap string npfloat)
    (Hs : score_text env cfg text = Ok bundle) :
  exists (rs ls ts : gmap string Q) (overall : Q),
    ReadabilityMetrics.score env text = Ok rs /\
    LinguisticMetrics.score env text = Ok ls /\
    TranslationMetrics.score env text = Ok ts /\
    bundle !! "overall_complexity" = Some (Fin overall) /\
    0 <= overall /\ overall <= 1 /\
    (forall metric v, rs !! metric = Some v -> bundle !! metric = Some (Fin v)) /\
    (forall metric v, ls !! metric = Some v -> bundle !! metric = Some (Fin v)) /\
    (forall metric v, ts !! metric = Some v -> bundle !! metric = Some (Fin v)) /\
    dom bundle = readability_keys ∪ linguistic_keys ∪ translation_keys
                 ∪ {["overall_complexity"]} /\
    size bundle = 13%nat.
Proof.
  destruct (score_text_unfold env cfg text) as (rs & Hrs & Hdr & _ & Hunf).
  rewrite Hunf in Hs. clear Hunf.
  destruct (LinguisticMetrics.score env text) as [ls | e1] eqn:El;
    [| discriminate Hs].
  destruct (TranslationMetrics.score env text) as [ts | e2] eqn:Et;
    [| discriminate Hs].
  cbn [mbind result_bind] in Hs.
  destruct (linguistic_score_inv env text ls El) as [Hdl _].
  destruct (translation_score_bounds env text ts Et) as (c & _ & Hdt & _).
  destruct provider_keys_nonempty as (Kr & Kl & Kt).
  destruct provider_keys_disjoint as (Drl & Drt & Dlt & Doc).
  destruct (Qeq_dec (READABILITY_WEIGHT cfg + LINGUISTIC_WEIGHT cfg
                     + TRANSLATION_WEIGHT cfg) 0) as [Hz | Hnz].
  { rewrite (_calculate_overall_score_zero_sum cfg rs ls ts Hz) in Hs.
    discriminate Hs. }
  destruct (_calculate_overall_score_value cfg rs ls ts Hnz
              (dom_nonempty _ _ Hdr Kr) (dom_nonempty _ _ Hdl Kl)
              (dom_nonempty _ _ Hdt Kt)) as (x & Ho & _).
  rewrite Ho in Hs. cbn [mbind result_bind] in Hs. injection Hs as <-.
  destruct (np_clip_unit x) as (v & Hv & H0 & H1 & _).
  injection Hv as <-.
  exists rs, ls, ts, (Qmin 1 (Qmax x 0)).
  split; [exact Hrs |]. do 2 (split; [reflexivity |]).
  split; [apply lookup_insert_eq |].
  split; [exact H0 | split; [exact H1 |]].
  unfold update. rewrite (right_id_L ∅ (∪)).
  assert (Hnoc : forall k, k ∈ readability_keys ∪ linguistic_keys ∪ translation_keys ->
                 "overall_complexity" ≠ k) by (intros k Hk <-; exact (Doc Hk)).
  split; [| split; [| split; [| split]]].
  - intros k w Hk. pose proof (lookup_inside_dom _ _ _ _ Hdr Hk) as Hin.
    rewrite lookup_insert_ne
      by (apply Hnoc; do 2 (apply elem_of_union; left); exact Hin).
    rewrite lookup_union_r
      by (apply (lookup_outside_dom _ _ _ Hdt); intros Hk'; exact (Drt k Hin Hk')).
    rewrite lookup_union_r
      by (apply (lookup_outside_dom _ _ _ Hdl); intros Hk'; exact (Drl k Hin Hk')).
    by rewrite lookup_fmap, Hk.
  - intros k w Hk. pose proof (lookup_inside_dom _ _ _ _ Hdl Hk) as Hin.
    rewrite lookup_insert_ne
      by (apply Hnoc; apply elem_of_union; left; apply elem_of_union; right;
          exact Hin).
    rewrite lookup_union_r
      by (apply (lookup_outside_dom _ _ _ Hdt); intros Hk'; exact (Dlt k Hin Hk')).
    rewrite (lookup_union_Some_l _ _ _ (Fin w)); [reflexivity |].
    by rewrite lookup_fmap, Hk.
  - intros k w Hk. pose proof (lookup_inside_dom _ _ _ _ Hdt Hk) as Hin.
    rewrite lookup_insert_ne by (apply Hnoc; apply elem_of_union; right; exact Hin).
    rewrite (lookup_union_Some_l _ _ _ (Fin w)); [reflexivity |].
    by rewrite lookup_fmap, Hk.
  - rewrite dom_insert_L, !dom_union_L, !dom_fmap_L, Hdr, Hdl, Hdt.
    rewrite (union_comm_L {["overall_complexity"]}).
    by rewrite !(assoc_L (∪)), (union_comm_L translation_keys),
      (union_comm_L _ readability_keys), !(assoc_L (∪)).
  - rewrite <- size_dom.
    rewrite dom_insert_L, !dom_union_L, !dom_fmap_L, Hdr, Hdl, Hdt.
    by vm_compute.
Qed.

(** The sentence of the first test case. *)
Lemma score_text_bundle_witness :
  exists bundle,
    score_text demo_env default_Config "The cat sat on the mat. It was a sunny day."
    = Ok bundle /\
    size bundle = 13%nat.
Proof.
  assert (Hok : is_ok (score_text demo_env default_Config
                         "The cat sat on the mat. It was a sunny day.") = true)
    by (vm_compute; reflexivity).
  destruct (is_ok_returns _ Hok) as [bundle Es].
  exists bundle. split; [exact Es |].
  destruct (score_text_bundle demo_env default_Config _ bundle Es)
    as (rs & ls & ts & overall & H). apply H.
Defined.

Lemma category_mean_bounds (d : gmap string Q) (lo hi : Q) :
  d ≠ ∅ ->
  (forall k v, d !! k = Some v -> lo <= v /\ v <= hi) ->
  lo <= py_sum (values d) / len (values d) <= hi.
Proof.
  intros Hd Hb. apply mean_bounds; [by apply values_nonempty |].
  intros v Hv. destruct (elem_of_values_inv d v Hv) as [k Hk]. by apply (Hb k).
Qed.

(** X19. In [score_text] the final clamp is idle under ordinary conditions:
    with non-negative weights and a non-negative embedding norm, the three
    category means lie in [0, 1] and [overall_complexity] is exactly their
    weighted average. *)
Theorem score_text_clamp_idle (env : Collaborators) (cfg : Config) (text : string)
    (bundle : gmap string npfloat) (complexity : Q)
    (Hs : score_text env cfg text = Ok bundle)
    (Hwr : 0 <= READABILITY_WEIGHT cfg)
    (Hwl : 0 <= LINGUISTIC_WEIGHT cfg)
    (Hwt : 0 <= TRANSLATION_WEIGHT cfg)
    (Hnorm : embedding_norm env text = Ok complexity)
    (Hnorm0 : 0 <= complexity) :
  exists (rs ls ts : gmap string Q) (r l t overall : Q),
    ReadabilityMetrics.score env text = Ok rs /\
    LinguisticMetrics.score env text = Ok ls /\
    TranslationMetrics.score env text = Ok ts /\
    np_mean (values rs) = Fin r /\ (0 <= r /\ r <= 1) /\
    np_mean (values ls) = Fin l /\ (0 <= l /\ l <= 1) /\
    np_mean (values ts) = Fin t /\ (0 <= t /\ t <= 1) /\
    bundle !! "overall_complexity" = Some (Fin overall) /\
    overall == (r * READABILITY_WEIGHT cfg + l * LINGUISTIC_WEIGHT cfg
                + t * TRANSLATION_WEIGHT cfg)
               / (READABILITY_WEIGHT cfg + LINGUISTIC_WEIGHT cfg
                  + TRANSLATION_WEIGHT cfg).
Proof.
  destruct (score_text_unfold env cfg text) as (rs & Hrs & Hdr & Hbr & Hunf).
  rewrite Hunf in Hs. clear Hunf.
  destruct (LinguisticMetrics.score env text) as [ls | e1] eqn:El;
    [| discriminate Hs].
  destruct (TranslationMetrics.score env text) as [ts | e2] eqn:Et;
    [| discriminate Hs].
  cbn [mbind result_bind] in Hs.
  destruct (linguistic_score_inv env text ls El) as [Hdl Hbl].
  destruct (translation_score_bounds env text ts Et) as (c & Hc & Hdt & Hbt).
  rewrite Hnorm in Hc. injection Hc as <-.
  destruct provider_keys_nonempty as (Kr & Kl & Kt).
  pose proof (dom_nonempty _ _ Hdr Kr) as Nr.
  pose proof (dom_nonempty _ _ Hdl Kl) as Nl.
  pose proof (dom_nonempty _ _ Hdt Kt) as Nt.
  destruct (Qeq_dec (READABILITY_WEIGHT cfg + LINGUISTIC_WEIGHT cfg
                     + TRANSLATION_WEIGHT cfg) 0) as [Hz | Hnz].
  { rewrite (_calculate_overall_score_zero_sum cfg rs ls ts Hz) in Hs.
    discriminate Hs. }
  destruct (_calculate_overall_score_value cfg rs ls ts Hnz Nr Nl Nt)
    as (x & Ho & Hx).
  rewrite Ho in Hs. cbn [mbind result_bind] in Hs. injection Hs as <-.
  pose proof (category_mean_bounds rs 0 1 Nr Hbr) as Mr.
  pose proof (category_mean_bounds ls 0 1 Nl Hbl) as Ml.
  assert (Mt : 0 <= py_sum (values ts) / len (values ts) <= 1).
  { apply category_mean_bounds; [exact Nt |]. intros k v Hk.
    destruct (Hbt k v Hk) as [H1 H0]. split; [by apply H0 | exact H1]. }
  assert (Hw : 0 < READABILITY_WEIGHT cfg + LINGUISTIC_WEIGHT cfg
                   + TRANSLATION_WEIGHT cfg) by lra.
  destruct (weighted_average_bounds _ _ _ _ _ _ 0 1 Hwr Hwl Hwt Hw Mr Ml Mt)
    as [X0 X1].
  rewrite <- Hx in X0, X1.
  do 7 eexists.
  split; [exact Hrs |]. do 2 (split; [reflexivity |]).
  split; [by apply np_mean_nonempty, values_nonempty | split; [exact Mr |]].
  split; [by apply np_mean_nonempty, values_nonempty | split; [exact Ml |]].
  split; [by apply np_mean_nonempty, values_nonempty | split; [exact Mt |]].
  split; [apply lookup_insert_eq |].
  rewrite <- Hx. rewrite Q.max_l by lra. apply Q.min_r. lra.
Qed.

(** The sentence of the first test case, with the default weights. *)
Lemma score_text_clamp_idle_witness :
  exists bundle overall,
    score_text demo_env default_Config "The cat sat on the mat. It was a sunny day."
    = Ok bundle /\
    bundle !! "overall_complexity" = Some (Fin overall).
Proof.
  assert (Hok : is_ok (score_text demo_env default_Config
                         "The cat sat on the mat. It was a sunny day.") = true)
    by (vm_compute; reflexivity).
  destruct (is_ok_returns _ Hok) as [bundle Es].
  destruct (score_text_clamp_idle demo_env default_Config _ bundle 3.2 Es)
    as (rs & ls & ts & r & l & t & overall & _ & _ & _ & _ & _ & _ & _ & _ & _ & Ho & _);
    [discriminate | discriminate | discriminate | reflexivity | discriminate |].
  exists bundle, overall. split; [exact Es | exact Ho].
Defined.

(** ** Batches, piece by piece *)

Lemma list_comprehension_app {A B : Type} (f : A -> result B) (xs ys : list A) :
  list_comprehension f (xs ++ ys) =
    (a ← list_comprehension f xs;
     b ← list_comprehension f ys;
     Ok (a ++ b)%list).
Proof.
  induction xs as [| x xs IH]; cbn [list_comprehension app mbind result_bind].
  - by destruct (list_comprehension f ys).
  - destruct (f x) as [y | e]; cbn [mbind result_bind]; [| reflexivity].
    rewrite IH. destruct (list_comprehension f xs) as [a | e];
      cbn [mbind result_bind]; [| reflexivity].
    by destruct (list_comprehension f ys).
Qed.

(** X20. Scoring a batch in two halves and concatenating is the same as
    scoring it in one call: the empty batch gives the empty list, and
    [batch_score (xs ++ ys)] is [batch_score xs] followed by
    [batch_score ys], with the exception of the first half, if any, taking
    precedence. *)
Theorem batch_score_app (env : Collaborators) (cfg : Config)
    (xs ys : list string) :
  batch_score env cfg [] = Ok [] /\
  batch_score env cfg (xs ++ ys) =
    (first ← batch_score env cfg xs;
     second ← batch_score env cfg ys;
     Ok (first ++ second)%list) /\
  (forall first second,
     batch_score env cfg xs = Ok first ->
     batch_score env cfg ys = Ok second ->
     batch_score env cfg (xs ++ ys) = Ok (first ++ second)%list).
Proof.
  split; [reflexivity |].
  assert (Happ := list_comprehension_app (score_text env cfg) xs ys).
  split; [exact Happ |].
  intros first second H1 H2. unfold batch_score in *. by rewrite Happ, H1, H2.
Qed.

(** X21. [batch_score] raises the exception of the first text on which
    [score_text] raises, whatever follows it in the list. *)
Theorem batch_score_first_failure (env : Collaborators) (cfg : Config)
    (before after : list string) (text : string) (e : exn)
    (Hbefore : forall t, t ∈ before -> exists bundle, score_text env cfg t = Ok bundle)
    (Hfail : score_text env cfg text = Raise e) :
  batch_score env cfg (before ++ text :: after) = Raise e.
Proof.
  induction before as [| t ts IH].
  - unfold batch_score. cbn [app list_comprehension]. by rewrite Hfail.
  - destruct (Hbefore t) as [b Hb]; [by left |].
    rewrite <- app_comm_cons.
    rewrite batch_score_cons, Hb. cbn [mbind result_bind].
    rewrite IH; [reflexivity |]. intros t' Ht'. apply Hbefore. by right.
Qed.

(** A good text, the empty text, and a text that is never reached. *)
Lemma batch_score_first_failure_witness :
  (forall t, t ∈ ["The cat sat on the mat."] ->
     exists bundle, score_text demo_env default_Config t = Ok bundle) /\
  score_text demo_env default_Config "" = Raise ZeroDivisionError /\
  batch_score demo_env default_Config
    (["The cat sat on the mat."] ++ "" :: ["It was a sunny day."])
  = Raise ZeroDivisionError.
Proof.
  assert (Hbefore : forall t, t ∈ ["The cat sat on the mat."] ->
            exists bundle, score_text demo_env default_Config t = Ok bundle).
  { intros t Ht. apply list_elem_of_singleton in Ht as ->.
    apply is_ok_returns. vm_compute. reflexivity. }
  assert (Hfail : score_text demo_env default_Config "" = Raise ZeroDivisionError)
    by (vm_compute; reflexivity).
  split; [exact Hbefore | split; [exact Hfail |]].
  exact (batch_score_first_failure demo_env default_Config _ _ _ _ Hbefore Hfail).
Defined.

(** ** Domain-specific terms *)

(** X22. The domain specificity is 0 when every word of the text is one of
    the thirty common terms (and when the text has no word), and 1 when the
    text has words and none of them is a common term. *)
Theorem domain_specificity_extremes (text : string) :
  exists v,
    TranslationMetrics._calculate_domain_specificity text = Ok v /\
    ((forall w, w ∈ split (lower text) -> w ∈ TranslationMetrics.common_terms) ->
     v == 0) /\
    (split (lower text) ≠ [] ->
     (forall w, w ∈ split (lower text) -> w ∉ TranslationMetrics.common_terms) ->
     v == 1).
Proof.
  unfold TranslationMetrics._calculate_domain_specificity.
  destruct (split (lower text)) as [| w ws] eqn:Ew.
  - exists 0.0. split; [reflexivity |]. split; [reflexivity | congruence].
  - set (words := w :: ws).
    assert (Hpos : 0 < len words) by (by apply len_pos).
    rewrite py_truediv_ok by lra.
    eexists. split; [reflexivity |]. split.
    + intros Hall.
      assert (Hnil : filter (λ w, w ∉ TranslationMetrics.common_terms) words = []).
      { apply filter_none. intros x Hx Hn. exact (Hn (Hall x Hx)). }
      rewrite Hnil. change (len (@nil string)) with 0. field. lra.
    + intros _ Hnone.
      assert (Hall : filter (λ w, w ∉ TranslationMetrics.common_terms) words = words).
      { apply filter_all. exact Hnone. }
      rewrite Hall. field. lra.
Qed.
